(** * GeoBoundaries: the boundary-layer orchestrator of the map page

    A shallow embedding of the map application's core logic: the session
    [state] object, the part of the MapLibre renderer the code talks to,
    and the handlers [selectCountry], [toggleAdminLevel],
    [loadAndRenderLayer], [removeLayer], [handleFeatureClick], [showPopup]
    and [selectSearchResult].

    JavaScript runs these handlers on one thread.  An [async] function runs
    synchronously up to its first [await]; the only [await] that suspends
    here is the [fetch] of [loadAndRenderLayer] (followed by [res.json()],
    between which no state is touched).  A suspended call is kept in the
    world as an in-flight request and resumed by a separate event, so that
    other handlers can run in between, as they can in the browser.

    The JSON objects the code uses as dictionaries ([state.terminology],
    [state.content], [state.geoJsonCache]) are finite maps over their own
    keys; country and level codes that would name a member of
    [Object.prototype] are not considered. *)

From stdpp Require Import base strings list gmap.
From Stdlib Require Import ZArith Lia Ascii Sorted.

Local Open Scope string_scope.
Local Open Scope Z_scope.

(** ** Static data (terminology.json, content.json, search-index.json) *)

(** [lon, lat] pairs and zoom levels are only passed through to the
    renderer; they are kept as integers. *)
Definition LngLat : Type := (Z * Z)%type.

Record Camera := mkCamera { center : LngLat; zoom : Z }.

Record LevelInfo := mkLevelInfo { term : string; file : string }.

(** [levels] is a JSON object; [Object.keys] and [Object.entries] walk it in
    insertion order (level codes such as "ADM0" are not array indices), so
    it is an association list with distinct keys. *)
Record CountryData := mkCountryData {
  defaultView : Camera;
  levels : list (string * LevelInfo)
}.

(** The [properties] of a boundary feature (geometry is never inspected). *)
Record Feature := mkFeature {
  shapeName : string;
  shapeType : string;
  shapeGroup : string
}.

(** A boundary dataset: a feature collection. *)
Definition GeoJSON : Type := list Feature.

Record ContentRecord := mkContent {
  description : option string;
  images : option (list string);
  videos : option (list string)
}.

Record SearchItem := mkSearchItem {
  name : string;
  hierarchy : list string;
  iso : string;
  level : string;
  itemCenter : LngLat
}.

(** ** const config *)
Module config.
Definition dataBaseUrl : string :=
  "https://pub-6106e7f2cf224a18b071c86dd9511e90.r2.dev/geoboundaries_data".
Definition initialCenter : LngLat := (0, 20).
Definition initialZoom : Z := 2.
End config.

(** ** const state *)

(** [activeLevels] is a JS [Set] of strings: no duplicates, iteration in
    insertion order. *)
Record State := mkState {
  terminology : gmap string CountryData;
  content : gmap string (gmap string (gmap string ContentRecord));
  selectedCountryISO : option string;
  activeLevels : list string;
  geoJsonCache : gmap string GeoJSON
}.

Module JsSet.
Definition has (x : string) (s : list string) : bool := bool_decide (x ∈ s).
Definition add (x : string) (s : list string) : list string :=
  if has x s then s else s ++ [x].
Definition delete (x : string) (s : list string) : list string :=
  filter (λ y, y ≠ x) s.
Definition clear (s : list string) : list string := [].
End JsSet.

(** [obj[key]] on the [levels] object. *)
Fixpoint levelLookup (levelCode : string) (ls : list (string * LevelInfo))
  : option LevelInfo :=
  match ls with
  | [] => None
  | (k, info) :: rest =>
      if decide (k = levelCode) then Some info else levelLookup levelCode rest
  end.

(** ** The renderer (MapLibre [map]) as far as the code drives it *)

Inductive LayerType := fill | line.

Record Layer := mkLayer {
  layerId : string;
  layerType : LayerType;
  layerSource : string;
  visible : bool
}.

Inductive Media :=
| Video (src : string)
| Image (src alt : string).

Record Popup := mkPopup {
  popupLngLat : LngLat;
  popupTitle : string;
  popupSubtitle : string;
  popupMedia : list Media;
  popupDescription : option string;
  popupHtml : string
}.

(** [layers] is the style's layer stack in draw order: the head is drawn
    first (bottom), the last element is on top. [listeners] records the
    [map.on(type, layerId, ...)] registrations. *)
Record MapLibre := mkMap {
  sources : gmap string GeoJSON;
  layers : list Layer;
  camera : Camera;
  listeners : list (string * string);
  popups : list Popup
}.

Module Map.
Definition getSource (id : string) (m : MapLibre) : option GeoJSON :=
  sources m !! id.

Definition getLayer (id : string) (m : MapLibre) : option Layer :=
  snd <$> list_find (λ l, layerId l = id) (layers m).

(** [addSource] throws when the id is taken ([None]). *)
Definition addSource (id : string) (data : GeoJSON) (m : MapLibre)
  : option MapLibre :=
  match getSource id m with
  | Some _ => None
  | None => Some (mkMap (<[id := data]> (sources m)) (layers m) (camera m)
                        (listeners m) (popups m))
  end.

(** [addLayer] without [beforeId] puts the layer on top; a taken id only
    fires an error event and changes nothing. *)
Definition addLayer (id : string) (ty : LayerType) (src : string)
    (m : MapLibre) : MapLibre :=
  match getLayer id m with
  | None =>
      mkMap (sources m) (layers m ++ [mkLayer id ty src true]) (camera m)
            (listeners m) (popups m)
  | Some _ => m
  end.

Definition removeLayer (id : string) (m : MapLibre) : MapLibre :=
  mkMap (sources m) (filter (λ l, layerId l ≠ id) (layers m)) (camera m)
        (listeners m) (popups m).

(** A source still used by a layer is not removed (error event). *)
Definition removeSource (id : string) (m : MapLibre) : MapLibre :=
  if bool_decide (Exists (λ l, layerSource l = id) (layers m)) then m
  else mkMap (delete id (sources m)) (layers m) (camera m)
             (listeners m) (popups m).

(** [setLayoutProperty(id, 'visibility', 'visible')] *)
Definition setVisible (id : string) (m : MapLibre) : MapLibre :=
  mkMap (sources m)
        ((λ l, if decide (layerId l = id)
               then mkLayer (layerId l) (layerType l) (layerSource l) true
               else l) <$> layers m)
        (camera m) (listeners m) (popups m).

Definition flyTo (c : Camera) (m : MapLibre) : MapLibre :=
  mkMap (sources m) (layers m) c (listeners m) (popups m).

Definition on (type id : string) (m : MapLibre) : MapLibre :=
  mkMap (sources m) (layers m) (camera m) (listeners m ++ [(type, id)])
        (popups m).

Definition addPopup (p : Popup) (m : MapLibre) : MapLibre :=
  mkMap (sources m) (layers m) (camera m) (listeners m) (popups m ++ [p]).

(** [queryRenderedFeatures(point, {layers})]: of the features rendered
    under the point (given top-most first, each with the layer that drew
    it), those drawn by one of the listed layers. *)
Definition queryRenderedFeatures (under : list (string * Feature))
    (ids : list string) : list Feature :=
  snd <$> filter (λ p, p.1 ∈ ids) under.
End Map.

(** ** The page around the map *)

(** A button of [#admin-buttons-container]; [btnIso] is the country its
    click handler closed over. *)
Record Button := mkButton {
  btnIso : string;
  btnLevel : string;
  btnText : string;
  btnActive : bool
}.

Inductive LogEntry :=
| NoTerminology (iso : string)
| LoadFailed (iso levelCode : string)
| Uncaught (iso levelCode : string).

(** A call of [loadAndRenderLayer] suspended at [await fetch(path)]. *)
Record Request := mkRequest {
  reqIso : string;
  reqLevel : string;
  reqPath : string
}.

(** [network] lists every URL handed to [fetch] by [loadAndRenderLayer], in
    order; [console] collects [console.error] calls and promise rejections
    nobody handles. *)
Record World := mkWorld {
  state : State;
  map : MapLibre;
  adminButtons : list Button;
  inflight : list Request;
  network : list string;
  console : list LogEntry
}.

Definition withState (f : State → State) (w : World) : World :=
  mkWorld (f (state w)) (map w) (adminButtons w) (inflight w) (network w)
          (console w).

Definition withMap (f : MapLibre → MapLibre) (w : World) : World :=
  mkWorld (state w) (f (map w)) (adminButtons w) (inflight w) (network w)
          (console w).

Definition withButtons (f : list Button → list Button) (w : World) : World :=
  mkWorld (state w) (map w) (f (adminButtons w)) (inflight w) (network w)
          (console w).

Definition logError (e : LogEntry) (w : World) : World :=
  mkWorld (state w) (map w) (adminButtons w) (inflight w) (network w)
          (console w ++ [e]).

Definition startFetch (r : Request) (w : World) : World :=
  mkWorld (state w) (map w) (adminButtons w) (inflight w ++ [r])
          (network w ++ [reqPath r]) (console w).

Definition setSelected (iso : string) (s : State) : State :=
  mkState (terminology s) (content s) (Some iso) (activeLevels s)
          (geoJsonCache s).

Definition setActive (f : list string → list string) (s : State) : State :=
  mkState (terminology s) (content s) (selectedCountryISO s)
          (f (activeLevels s)) (geoJsonCache s).

Definition setCache (f : gmap string GeoJSON → gmap string GeoJSON)
    (s : State) : State :=
  mkState (terminology s) (content s) (selectedCountryISO s) (activeLevels s)
          (f (geoJsonCache s)).

(** The world once [init] has loaded the data files. *)
Definition initWorld (t : gmap string CountryData)
    (c : gmap string (gmap string (gmap string ContentRecord))) : World :=
  mkWorld (mkState t c None [] ∅)
          (mkMap ∅ [] (mkCamera config.initialCenter config.initialZoom) [] [])
          [] [] [] [].

(** ** Core logic *)

Definition cacheKeyOf (iso levelCode : string) : string :=
  iso +:+ "_" +:+ levelCode.
Definition sourceIdOf (cacheKey : string) : string := "source-" +:+ cacheKey.
Definition layerIdFillOf (cacheKey : string) : string :=
  "layer-fill-" +:+ cacheKey.
Definition layerIdLineOf (cacheKey : string) : string :=
  "layer-line-" +:+ cacheKey.

(** [if (map.getLayer(id)) map.setLayoutProperty(id, 'visibility', 'visible')] *)
Definition ensureVisible (id : string) (m : MapLibre) : MapLibre :=
  match Map.getLayer id m with
  | Some _ => Map.setVisible id m
  | None => m
  end.

(** The tail of [loadAndRenderLayer], from "Add Source" on: the source, the
    fill layer, the line layer (both appended: no [beforeId]), then the
    click and cursor listeners.  When [addSource] throws, the rest is
    skipped and the promise is rejected. *)
Definition addSourceAndLayers (iso levelCode : string) (geojson : GeoJSON)
    (w : World) : World :=
  let cacheKey := cacheKeyOf iso levelCode in
  let sourceId := sourceIdOf cacheKey in
  let layerIdFill := layerIdFillOf cacheKey in
  let layerIdLine := layerIdLineOf cacheKey in
  match Map.addSource sourceId geojson (map w) with
  | None => logError (Uncaught iso levelCode) w
  | Some m1 =>
      let m2 := Map.addLayer layerIdFill fill sourceId m1 in
      let m3 := Map.addLayer layerIdLine line sourceId m2 in
      let m4 := Map.on "click" layerIdFill m3 in
      let m5 := Map.on "mouseenter" layerIdFill m4 in
      let m6 := Map.on "mouseleave" layerIdFill m5 in
      withMap (λ _, m6) w
  end.

(** [loadAndRenderLayer] up to its first suspension.  A dataset is a parsed
    feature collection, hence truthy, so [!state.geoJsonCache[cacheKey]] is
    "no entry".  Reading [countryData.levels[levelCode].file] throws a
    TypeError when the country or the level is unknown. *)
Definition loadAndRenderLayer (iso levelCode : string) (w : World) : World :=
  let cacheKey := cacheKeyOf iso levelCode in
  let sourceId := sourceIdOf cacheKey in
  let layerIdFill := layerIdFillOf cacheKey in
  let layerIdLine := layerIdLineOf cacheKey in
  match Map.getSource sourceId (map w) with
  | Some _ =>
      withMap (λ m, ensureVisible layerIdLine (ensureVisible layerIdFill m)) w
  | None =>
      match geoJsonCache (state w) !! cacheKey with
      | None =>
          match terminology (state w) !! iso with
          | None => logError (Uncaught iso levelCode) w
          | Some countryData =>
              match levelLookup levelCode (levels countryData) with
              | None => logError (Uncaught iso levelCode) w
              | Some info =>
                  let path := config.dataBaseUrl +:+ "/" +:+ file info in
                  startFetch (mkRequest iso levelCode path) w
              end
          end
      | Some geojson => addSourceAndLayers iso levelCode geojson w
      end
  end.

(** The rest of a suspended [loadAndRenderLayer] once its fetch settles:
    [None] is a network error, a non-ok status or unparsable JSON (the
    [catch] branch), [Some data] the parsed body. *)
Definition loadAndRenderLayer_resume (r : Request) (outcome : option GeoJSON)
    (w : World) : World :=
  let cacheKey := cacheKeyOf (reqIso r) (reqLevel r) in
  match outcome with
  | None => logError (LoadFailed (reqIso r) (reqLevel r)) w
  | Some data =>
      addSourceAndLayers (reqIso r) (reqLevel r) data
        (withState (setCache (insert cacheKey data)) w)
  end.

Definition removeLayer (iso levelCode : string) (w : World) : World :=
  let cacheKey := cacheKeyOf iso levelCode in
  let layerIdFill := layerIdFillOf cacheKey in
  let layerIdLine := layerIdLineOf cacheKey in
  let sourceId := sourceIdOf cacheKey in
  let m1 := match Map.getLayer layerIdFill (map w) with
            | Some _ => Map.removeLayer layerIdFill (map w)
            | None => map w
            end in
  let m2 := match Map.getLayer layerIdLine m1 with
            | Some _ => Map.removeLayer layerIdLine m1
            | None => m1
            end in
  let m3 := match Map.getSource sourceId m2 with
            | Some _ => Map.removeSource sourceId m2
            | None => m2
            end in
  withMap (λ _, m3) w.

(** [querySelector] yields the first button with that [data-level]. *)
Fixpoint setButtonActive (levelCode : string) (b : bool) (bs : list Button)
  : list Button :=
  match bs with
  | [] => []
  | x :: rest =>
      if decide (btnLevel x = levelCode)
      then mkButton (btnIso x) (btnLevel x) (btnText x) b :: rest
      else x :: setButtonActive levelCode b rest
  end.

Definition toggleAdminLevel (iso levelCode : string) (shouldEnable : bool)
    (w : World) : World :=
  if shouldEnable then
    let w1 := withState (setActive (JsSet.add levelCode)) w in
    let w2 := withButtons (setButtonActive levelCode true) w1 in
    loadAndRenderLayer iso levelCode w2
  else
    let w1 := withState (setActive (JsSet.delete levelCode)) w in
    let w2 := withButtons (setButtonActive levelCode false) w1 in
    removeLayer iso levelCode w2.

(** Only called by [selectCountry], after it has found the entry. *)
Definition renderAdminButtons (iso : string) (w : World) : World :=
  match terminology (state w) !! iso with
  | None => withButtons (λ _, []) w
  | Some countryData =>
      withButtons
        (λ _, (λ e, mkButton iso e.1 (term e.2) false) <$> levels countryData)
        w
  end.

Definition selectCountry (iso : string) (w : World) : World :=
  let w1 := withState (setSelected iso) w in
  let w2 := withState (setActive JsSet.clear) w1 in
  match terminology (state w2) !! iso with
  | None => logError (NoTerminology iso) w2
  | Some countryData =>
      let w3 := withMap (Map.flyTo (defaultView countryData)) w2 in
      let w4 := renderAdminButtons iso w3 in
      match levels countryData with
      | [] => w4
      | (level0, _) :: _ => toggleAdminLevel iso level0 true w4
      end
  end.

(** The click handler of the [k]-th admin button. *)
Definition adminButtonClick (k : nat) (w : World) : World :=
  match adminButtons w !! k with
  | None => w
  | Some btn =>
      let isActive := JsSet.has (btnLevel btn) (activeLevels (state w)) in
      toggleAdminLevel (btnIso btn) (btnLevel btn) (negb isActive) w
  end.

Definition selectSearchResult (item : SearchItem) (w : World) : World :=
  let w1 := if decide (selectedCountryISO (state w) = Some (iso item))
            then w
            else selectCountry (iso item) w in
  let w2 := withMap (Map.flyTo (mkCamera (itemCenter item) 7)) w1 in
  toggleAdminLevel (iso item) (level item) true w2.

(** ** The event loop *)

Inductive Event :=
| DropdownChange (iso : string)
| ButtonClick (k : nat)
| SearchResultClick (item : SearchItem)
| FetchSettled (i : nat) (outcome : option GeoJSON).

Definition step (e : Event) (w : World) : World :=
  match e with
  | DropdownChange iso => selectCountry iso w
  | ButtonClick k => adminButtonClick k w
  | SearchResultClick item => selectSearchResult item w
  | FetchSettled i outcome =>
      match inflight w !! i with
      | None => w
      | Some r =>
          loadAndRenderLayer_resume r outcome
            (mkWorld (state w) (map w) (adminButtons w)
                     (delete i (inflight w)) (network w) (console w))
      end
  end.

Definition run (es : list Event) (w : World) : World :=
  foldl (λ w e, step e w) w es.

(** ** Interaction *)

(** *** The pieces of JavaScript the click handler leans on *)
Module Js.
(** [String.prototype.replace(pattern, replacement)] with a string
    pattern: the first occurrence only. *)
Fixpoint dropChars (n : nat) (s : string) : string :=
  match n, s with
  | O, _ => s
  | S n', String _ s' => dropChars n' s'
  | S _, EmptyString => EmptyString
  end.

Fixpoint replace (pattern replacement s : string) : string :=
  if String.prefix pattern s
  then replacement +:+ dropChars (String.length pattern) s
  else match s with
       | EmptyString => EmptyString
       | String c s' => String c (replace pattern replacement s')
       end.

Definition isWhiteSpace (c : ascii) : bool :=
  let n := Ascii.N_of_ascii c in
  (N.eqb n 32 || N.eqb n 9 || N.eqb n 10 || N.eqb n 11 || N.eqb n 12
   || N.eqb n 13)%bool.

Fixpoint trimStart (s : string) : string :=
  match s with
  | EmptyString => EmptyString
  | String c s' => if isWhiteSpace c then trimStart s' else s
  end.

Definition digitValue (c : ascii) : option Z :=
  let n := Z.of_N (Ascii.N_of_ascii c) in
  if ((48 <=? n) && (n <=? 57))%bool then Some (n - 48)
  else if ((97 <=? n) && (n <=? 122))%bool then Some (n - 87)
  else if ((65 <=? n) && (n <=? 90))%bool then Some (n - 55)
  else None.

(** The longest prefix of digits of the radix; [None] when it is empty. *)
Fixpoint parseDigits (radix : Z) (s : string) (acc : option Z) : option Z :=
  match s with
  | EmptyString => acc
  | String c s' =>
      match digitValue c with
      | Some d =>
          if d <? radix
          then parseDigits radix s' (Some (radix * default 0 acc + d))
          else acc
      | None => acc
      end
  end.

(** [parseInt(s)] with no radix argument; [None] is NaN.  Level numbers
    are small, far inside the range where a Number is an exact integer. *)
Definition parseInt (s : string) : option Z :=
  let s1 := trimStart s in
  let '(sign, s2) :=
    match s1 with
    | String "-"%char r => (-1, r)
    | String "+"%char r => (1, r)
    | _ => (1, s1)
    end in
  let '(radix, s3) :=
    match s2 with
    | String "0"%char (String "x"%char r) => (16, r)
    | String "0"%char (String "X"%char r) => (16, r)
    | _ => (10, s2)
    end in
  (λ v, sign * v) <$> parseDigits radix s3 None.

(** [Array.prototype.sort(comparefn)] is a stable sort; an element goes
    before another when [comparefn] is negative and keeps its place when
    it is zero. *)
Fixpoint insertBy {A} (comparefn : A → A → Z) (x : A) (l : list A) : list A :=
  match l with
  | [] => [x]
  | y :: l' =>
      if comparefn x y <=? 0 then x :: l else y :: insertBy comparefn x l'
  end.

Definition sort {A} (comparefn : A → A → Z) (l : list A) : list A :=
  foldr (insertBy comparefn) [] l.
End Js.

(** [parseInt(f.properties.shapeType.replace('ADM', ''))] *)
Definition levelNumber (f : Feature) : option Z :=
  Js.parseInt (Js.replace "ADM" EmptyString (shapeType f)).

(** [(a, b) => levelB - levelA]; a NaN result counts as 0 in [sort]. *)
Definition compareLevels (a b : Feature) : Z :=
  match levelNumber a, levelNumber b with
  | Some levelA, Some levelB => levelB - levelA
  | _, _ => 0
  end.

(** The choice made by [handleFeatureClick] among the queried features. *)
Definition topFeature (features : list Feature) : option Feature :=
  match features with
  | [] => None
  | _ => head (Js.sort compareLevels features)
  end.

(** *** showPopup *)

Definition dquote : string := String (Ascii.ascii_of_nat 34) EmptyString.

Definition attr (k v : string) : string :=
  " " +:+ k +:+ "=" +:+ dquote +:+ v +:+ dquote.

(** [termData?.levels[shapeType]?.term || shapeType] *)
Definition levelTermOf (t : gmap string CountryData) (iso shapeType : string)
  : string :=
  match t !! iso with
  | None => shapeType
  | Some termData =>
      match levelLookup shapeType (levels termData) with
      | None => shapeType
      | Some info =>
          if decide (term info = EmptyString) then shapeType else term info
      end
  end.

Definition emptyContent : ContentRecord :=
  mkContent (Some EmptyString) (Some []) (Some []).

(** [state.content[iso] && state.content[iso][shapeType] &&
    state.content[iso][shapeType][shapeName]] *)
Definition findContent
    (c : gmap string (gmap string (gmap string ContentRecord)))
    (iso shapeType shapeName : string) : option ContentRecord :=
  match c !! iso with
  | None => None
  | Some byLevel =>
      match byLevel !! shapeType with
      | None => None
      | Some byName => byName !! shapeName
      end
  end.

Definition contentOf (c : gmap string (gmap string (gmap string ContentRecord)))
    (iso shapeType shapeName : string) : ContentRecord :=
  match findContent c iso shapeType shapeName with
  | Some record => record
  | None => emptyContent
  end.

(** The blocks appended to [mediaHtml], in order. *)
Definition mediaOf (record : ContentRecord) (shapeName : string) : list Media :=
  match videos record with
  | Some (videoUrl :: _) => [Video videoUrl]
  | _ => []
  end ++
  match images record with
  | Some (imageUrl :: _) => [Image imageUrl shapeName]
  | _ => []
  end.

(** [content.description ? ... : ''] *)
Definition descriptionOf (record : ContentRecord) : option string :=
  match description record with
  | Some d => if decide (d = EmptyString) then None else Some d
  | None => None
  end.

Definition mediaHtml (m : Media) : string :=
  match m with
  | Video src =>
      "<div" +:+ attr "class" "popup-media" +:+ "><iframe" +:+ attr "src" src
      +:+ " allowfullscreen></iframe></div>"
  | Image src alt =>
      "<div" +:+ attr "class" "popup-media" +:+ "><img" +:+ attr "src" src
      +:+ attr "alt" alt +:+ "></div>"
  end.

(** The template literal handed to [setHTML], without its indentation. *)
Definition htmlOf (shapeName levelTerm : string) (media : list Media)
    (desc : option string) : string :=
  "<div" +:+ attr "class" "popup-header" +:+ ">"
  +:+ "<h3" +:+ attr "class" "popup-title" +:+ ">" +:+ shapeName +:+ "</h3>"
  +:+ "<p" +:+ attr "class" "popup-subtitle" +:+ ">" +:+ levelTerm +:+ "</p>"
  +:+ "</div><div" +:+ attr "class" "popup-body" +:+ ">"
  +:+ foldr (λ m acc, mediaHtml m +:+ acc) EmptyString media
  +:+ match desc with
      | Some d => "<p" +:+ attr "class" "popup-description" +:+ ">" +:+ d
                  +:+ "</p>"
      | None => EmptyString
      end
  +:+ "</div>".

Definition popupOf (s : State) (feature : Feature) (lngLat : LngLat) : Popup :=
  let shapeName := shapeName feature in
  let shapeType := shapeType feature in
  let iso := shapeGroup feature in
  let levelTerm := levelTermOf (terminology s) iso shapeType in
  let record := contentOf (content s) iso shapeType shapeName in
  let media := mediaOf record shapeName in
  let desc := descriptionOf record in
  mkPopup lngLat shapeName levelTerm media desc
          (htmlOf shapeName levelTerm media desc).

Definition showPopup (feature : Feature) (lngLat : LngLat) (w : World)
  : World :=
  withMap (Map.addPopup (popupOf (state w) feature lngLat)) w.

(** *** handleFeatureClick *)

(** A click: what the renderer has under [e.point] and [e.lngLat]. *)
Record ClickEvent := mkClick {
  point : list (string * Feature);
  lngLat : LngLat
}.

(** [Array.from(state.activeLevels).map(lvl => `layer-fill-${iso}_${lvl}`)] *)
Definition activeFillLayers (iso : string) (s : State) : list string :=
  (λ lvl, "layer-fill-" +:+ iso +:+ "_" +:+ lvl) <$> activeLevels s.

Definition handleFeatureClick (e : ClickEvent) (iso levelCode : string)
    (w : World) : World :=
  let activeLayers := activeFillLayers iso (state w) in
  let features := Map.queryRenderedFeatures (point e) activeLayers in
  match topFeature features with
  | None => w
  | Some top => showPopup top (lngLat e) w
  end.

(** ** Notions used to state the properties *)

(** The rank of a level code, read the way [handleFeatureClick] reads it. *)
Definition levelRank (levelCode : string) : option Z :=
  Js.parseInt (Js.replace "ADM" EmptyString levelCode).

Definition rankLt (a b : string) : Prop :=
  match levelRank a, levelRank b with
  | Some x, Some y => x < y
  | _, _ => False
  end.

(** A catalog entry lists its levels from least to most detailed. *)
Definition ascendingLevels (countryData : CountryData) : Prop :=
  StronglySorted rankLt (fst <$> levels countryData).

(** Position of a layer in the draw order (0 is the bottom). *)
Definition drawPosition (id : string) (m : MapLibre) : option nat :=
  fst <$> list_find (λ l, layerId l = id) (layers m).

(** Layer [a] is drawn, and strictly below the drawn layer [b]. *)
Definition drawnBelow (a b : string) (m : MapLibre) : Prop :=
  match drawPosition a m, drawPosition b m with
  | Some i, Some j => (i < j)%nat
  | _, _ => False
  end.

(** The layers of a key, bottom first. *)
Definition layersOfKey (cacheKey : string) : list Layer :=
  [mkLayer (layerIdFillOf cacheKey) fill (sourceIdOf cacheKey) true;
   mkLayer (layerIdLineOf cacheKey) line (sourceIdOf cacheKey) true].

(** The renderer holds nothing for the key. *)
Definition keyAbsent (cacheKey : string) (m : MapLibre) : Prop :=
  Map.getSource (sourceIdOf cacheKey) m = None ∧
  Map.getLayer (layerIdFillOf cacheKey) m = None ∧
  Map.getLayer (layerIdLineOf cacheKey) m = None.

(** Draw order follows rank for the active levels of a country. *)
Definition drawOrderByRank (iso : string) (w : World) : Prop :=
  ∀ lo hi, lo ∈ activeLevels (state w) → hi ∈ activeLevels (state w) →
    rankLt lo hi →
    drawnBelow (layerIdLineOf (cacheKeyOf iso lo))
               (layerIdFillOf (cacheKeyOf iso hi)) (map w).

(** A request in flight is stale when its country is no longer the selected
    one or its level is no longer active. *)
Definition stale (r : Request) (w : World) : Prop :=
  selectedCountryISO (state w) ≠ Some (reqIso r) ∨
  reqLevel r ∉ activeLevels (state w).

(** Settling the [i]-th request in flight leaves the renderer's sources and
    layers as they were. *)
Definition resultDiscarded (i : nat) (outcome : option GeoJSON) (w : World)
  : Prop :=
  sources (map (step (FetchSettled i outcome) w)) = sources (map w) ∧
  layers (map (step (FetchSettled i outcome) w)) = layers (map w).






(** ** Sample data *)
Module Sample.
Definition fra : CountryData :=
  mkCountryData (mkCamera (2, 46) 5)
    [("ADM0", mkLevelInfo "Country" "FRA/ADM0.geojson");
     ("ADM1", mkLevelInfo "Region" "FRA/ADM1.geojson");
     ("ADM2", mkLevelInfo "Department" "FRA/ADM2.geojson")].

Definition usa : CountryData :=
  mkCountryData (mkCamera (-98, 39) 3)
    [("ADM0", mkLevelInfo "Country" "USA/ADM0.geojson");
     ("ADM1", mkLevelInfo "State" "USA/ADM1.geojson");
     ("ADM2", mkLevelInfo EmptyString "USA/ADM2.geojson")].

(** An entry that lists no level. *)
Definition ata : CountryData := mkCountryData (mkCamera (0, -90) 2) [].

Definition catalog : gmap string CountryData :=
  {[ "FRA" := fra; "USA" := usa; "ATA" := ata ]}.

Definition paris : ContentRecord :=
  mkContent (Some "Capital region")
            (Some ["paris1.jpg"; "paris2.jpg"])
            (Some ["paris1.mp4"; "paris2.mp4"]).

Definition texts : gmap string (gmap string (gmap string ContentRecord)) :=
  {[ "FRA" := {[ "ADM1" := {[ "Ile-de-France" := paris ]} ]} ]}.

Definition fra0 : GeoJSON := [mkFeature "France" "ADM0" "FRA"].
Definition fra1 : GeoJSON :=
  [mkFeature "Ile-de-France" "ADM1" "FRA"; mkFeature "Bretagne" "ADM1" "FRA"].
Definition usa0 : GeoJSON := [mkFeature "United States" "ADM0" "USA"].
Definition usa0' : GeoJSON := [mkFeature "United States of America" "ADM0" "USA"].
Definition usa2 : GeoJSON := [mkFeature "Cook" "ADM2" "USA"].

Definition start : World := initWorld catalog texts.

(** France selected and its country outline loaded. *)
Definition franceShown : World :=
  run [DropdownChange "FRA"; FetchSettled 0 (Some fra0)] start.

Definition cookCounty : SearchItem :=
  mkSearchItem "Cook County" ["Cook County"; "Illinois"; "United States"]
               "USA" "ADM2" (-88, 42).

Definition unitedStates : SearchItem :=
  mkSearchItem "United States" ["United States"] "USA" "ADM0" (-98, 39).

Definition fra2 : GeoJSON :=
  [mkFeature "Paris" "ADM2" "FRA"; mkFeature "Yvelines" "ADM2" "FRA"].

(** France with its three levels loaded and drawn. *)
Definition franceAllLevels : World :=
  run [ButtonClick 1; FetchSettled 0 (Some fra1);
       ButtonClick 2; FetchSettled 0 (Some fra2)] franceShown.

(** A click where the outline, a region and two parts of a department
    overlap, and a click on open sea. *)
Definition clickParis : ClickEvent :=
  mkClick [("layer-fill-FRA_ADM0", mkFeature "France" "ADM0" "FRA");
           ("layer-fill-FRA_ADM2", mkFeature "Paris" "ADM2" "FRA");
           ("layer-fill-FRA_ADM1", mkFeature "Ile-de-France" "ADM1" "FRA");
           ("layer-fill-FRA_ADM2", mkFeature "Paris (islands)" "ADM2" "FRA")]
          (2, 48).


Definition urlOf (path : string) : string :=
  config.dataBaseUrl +:+ "/" +:+ path.
End Sample.

(** ** The rest of the page: search box and start-up *)

(** [Array.prototype.join(separator)] on an array of strings. *)
Fixpoint arrayJoin (separator : string) (l : list string) : string :=
  match l with
  | [] => EmptyString
  | [x] => x
  | x :: rest => x +:+ separator +:+ arrayJoin separator rest
  end.

(** [#search-results] (its [hidden] class and its children, each with the
    record its click handler closed over) and the value of [#search-input].
    Characters of the query are counted as [query.length] counts them. *)
Record SearchBox := mkSearchBox {
  resultsHidden : bool;
  resultItems : list (string * SearchItem);
  searchInputValue : string
}.

(** [handleSearch]; [search] is [fuse.search], which returns the matching
    records best first. *)
Definition handleSearch (search : string → list SearchItem) (query : string)
    (box : SearchBox) : SearchBox :=
  if (String.length query <? 2)%nat
  then mkSearchBox true [] (searchInputValue box)
  else
    match search query with
    | [] => mkSearchBox true [] (searchInputValue box)
    | results =>
        mkSearchBox false
          ((λ item, (arrayJoin ", " (hierarchy item), item)) <$> take 10 results)
          (searchInputValue box)
    end.

(** The click handler of the [k]-th child of [#search-results]. *)
Definition searchResultItemClick (k : nat) (page : World * SearchBox)
  : World * SearchBox :=
  match resultItems page.2 !! k with
  | None => page
  | Some (_, item) =>
      (selectSearchResult item page.1,
       mkSearchBox true (resultItems page.2) (name item))
  end.

Module Startup.
(** An entry of countries.json. *)
Record Country := mkCountry { countryIso : string; countryName : string }.

(** What a [fetch] of a data file comes to: the promise is rejected, or a
    response arrives whose [json()] either throws ([None]) or yields the
    parsed value. *)
Inductive Response (A : Type) :=
| Rejected
| Body (parsed : option A).
Arguments Rejected {A}.
Arguments Body {A} parsed.

(** The four data fields of [state] (null until loaded), the collection
    handed to [new Fuse], the options of the country dropdown, whether
    [setupEventListeners] has run, and the alerts shown. *)
Record Page := mkPage {
  terminology : option (gmap string CountryData);
  countries : option (list Country);
  content : option (gmap string (gmap string (gmap string ContentRecord)));
  searchIndex : option (list SearchItem);
  fuse : option (list SearchItem);
  dropdownOptions : list (string * string);
  listening : bool;
  alerts : list string
}.

Definition blank : Page := mkPage None None None None None [] false [].

(** The [catch] branch of [init]. *)
Definition failed (p : Page) : Page :=
  mkPage (terminology p) (countries p) (content p) (searchIndex p) (fuse p)
         (dropdownOptions p) (listening p)
         (alerts p ++ ["Error loading application data. Check console."]).

(** [state.countries.forEach(...)] throws on [null] ([None]). *)
Definition populateDropdown (p : Page) : option Page :=
  match countries p with
  | None => None
  | Some cs =>
      Some (mkPage (terminology p) (countries p) (content p) (searchIndex p)
                   (fuse p)
                   (dropdownOptions p ++
                    ((λ c, (countryIso c, countryName c)) <$> cs))
                   (listening p) (alerts p))
  end.

Definition setupEventListeners (p : Page) : Page :=
  mkPage (terminology p) (countries p) (content p) (searchIndex p) (fuse p)
         (dropdownOptions p) true (alerts p).

(** [init]: [Promise.all] is rejected as soon as one fetch is; the four
    bodies are then parsed and assigned one after the other ([searchRes] is
    given by the [index] array of its body). *)
Definition init
    (termRes : Response (gmap string CountryData))
    (countriesRes : Response (list Country))
    (contentRes : Response (gmap string (gmap string (gmap string ContentRecord))))
    (searchRes : Response (list SearchItem))
    (p : Page) : Page :=
  match termRes, countriesRes, contentRes, searchRes with
  | Body termJson, Body countriesJson, Body contentJson, Body searchJson =>
      match termJson with
      | None => failed p
      | Some t =>
          let p1 := mkPage (Some t) (countries p) (content p) (searchIndex p)
                           (fuse p) (dropdownOptions p) (listening p)
                           (alerts p) in
          match countriesJson with
          | None => failed p1
          | Some cs =>
              let p2 := mkPage (terminology p1) (Some cs) (content p1)
                               (searchIndex p1) (fuse p1) (dropdownOptions p1)
                               (listening p1) (alerts p1) in
              match contentJson with
              | None => failed p2
              | Some c =>
                  let p3 := mkPage (terminology p2) (countries p2) (Some c)
                                   (searchIndex p2) (fuse p2)
                                   (dropdownOptions p2) (listening p2)
                                   (alerts p2) in
                  match searchJson with
                  | None => failed p3
                  | Some index =>
                      let p4 := mkPage (terminology p3) (countries p3)
                                       (content p3) (Some index) (Some index)
                                       (dropdownOptions p3) (listening p3)
                                       (alerts p3) in
                      match populateDropdown p4 with
                      | None => failed p4
                      | Some p5 => setupEventListeners p5
                      end
                  end
              end
          end
      end
  | _, _, _, _ => failed p
  end.
End Startup.

(** ** Invariants of the renderer and of the fetch queue *)

(** The renderer draws exactly the keys [ks], bottom first: the layer stack
    is the fill and line layer of each key in turn, and the sources are
    those of the keys. *)
Definition draws (ks : list string) (m : MapLibre) : Prop :=
  NoDup ks ∧
  layers m = ks ≫= layersOfKey ∧
  ∀ id, is_Some (sources m !! id) ↔ ∃ k, k ∈ ks ∧ id = sourceIdOf k.

(** Renderer and cache agree: what is drawn is a set of keys, each of them
    with its dataset in the cache. *)
Definition consistent (w : World) : Prop :=
  ∃ ks, draws ks (map w) ∧
        Forall (λ k, is_Some (geoJsonCache (state w) !! k)) ks.

(** The level is in the catalog, and [url] is where its file is. *)
Definition catalogued (t : gmap string CountryData)
    (iso levelCode url : string) : Prop :=
  ∃ countryData info,
    t !! iso = Some countryData ∧
    levelLookup levelCode (levels countryData) = Some info ∧
    url = config.dataBaseUrl +:+ "/" +:+ file info.

(** Everything asked of the network, everything in flight and everything
    cached belongs to a level of the catalog [t], which is the terminology
    the world still holds. *)
Definition fetchDiscipline (t : gmap string CountryData) (w : World) : Prop :=
  terminology (state w) = t ∧
  Forall (λ url, ∃ iso levelCode, catalogued t iso levelCode url) (network w) ∧
  Forall (λ r, catalogued t (reqIso r) (reqLevel r) (reqPath r)) (inflight w) ∧
  map_Forall (λ k _, ∃ iso levelCode url,
                k = cacheKeyOf iso levelCode ∧ catalogued t iso levelCode url)
             (geoJsonCache (state w)).




Module Demo.
Definition index : list SearchItem :=
  [Sample.cookCounty; Sample.unitedStates;
   mkSearchItem "Paris" ["Paris"; "Ile-de-France"; "France"] "FRA" "ADM2" (2, 48)].

(** A stand-in for [fuse.search]: records whose name starts with the
    query. *)
Definition search (query : string) : list SearchItem :=
  filter (λ item, String.prefix query (name item) = true) index.

Definition box : SearchBox := mkSearchBox true [] EmptyString.

(** France chosen and its three levels loaded one after the other. *)
Definition threeLevels : list Event :=
  [DropdownChange "FRA"; FetchSettled 0 (Some Sample.fra0);
   ButtonClick 1; FetchSettled 0 (Some Sample.fra1);
   ButtonClick 2; FetchSettled 0 (Some Sample.fra2)].

Definition countryList : list Startup.Country :=
  [Startup.mkCountry "FRA" "France"; Startup.mkCountry "USA" "United States"].
End Demo.

(** * Properties *)

(** ** What each handler does to the session state *)

Section StateFootprint.
Variables iso levelCode : string.

Lemma addSourceAndLayers_state geojson w :
  state (addSourceAndLayers iso levelCode geojson w) = state w.
Proof. unfold addSourceAndLayers. by case_match. Qed.

Lemma loadAndRenderLayer_state w :
  state (loadAndRenderLayer iso levelCode w) = state w.
Proof.
  unfold loadAndRenderLayer.
  repeat case_match; try done. apply addSourceAndLayers_state.
Qed.

Lemma removeLayer_state w : state (removeLayer iso levelCode w) = state w.
Proof. done. Qed.

Lemma toggleAdminLevel_state shouldEnable w :
  state (toggleAdminLevel iso levelCode shouldEnable w) =
  setActive (if shouldEnable then JsSet.add levelCode
             else JsSet.delete levelCode) (state w).
Proof.
  destruct shouldEnable; simpl; [|done].
  by rewrite loadAndRenderLayer_state.
Qed.
End StateFootprint.

(** Settling a fetch never touches the selection or the active set, and
    writes the cache only on success, under the request's own key. *)
Lemma resume_state r outcome w :
  state (loadAndRenderLayer_resume r outcome w) =
  match outcome with
  | None => state w
  | Some data =>
      setCache (insert (cacheKeyOf (reqIso r) (reqLevel r)) data) (state w)
  end.
Proof.
  unfold loadAndRenderLayer_resume. destruct outcome; [|done].
  by rewrite addSourceAndLayers_state.
Qed.

Lemma step_settled_active i outcome w :
  activeLevels (state (step (FetchSettled i outcome) w)) =
    activeLevels (state w) ∧
  selectedCountryISO (state (step (FetchSettled i outcome) w)) =
    selectedCountryISO (state w).
Proof.
  simpl. destruct (inflight w !! i); [|done].
  rewrite resume_state. by destruct outcome.
Qed.

(** A failed fetch changes nothing but the console. *)
Lemma resume_failure r w :
  loadAndRenderLayer_resume r None w =
  logError (LoadFailed (reqIso r) (reqLevel r)) w.
Proof. done. Qed.

(** ** Failed fetches (C1) *)

(** C1. When the dataset fetch of an activation fails, the level should not
    be marked active and no layer or source should exist for it.  Evaluated
    on France with ADM0 shown: the ADM1 button is clicked and its fetch
    fails.  No source or layer is created, but "ADM1" stays in
    [activeLevels] and its button stays highlighted. *)
Theorem failed_fetch_leaves_level_marked_active :
  let w := run [ButtonClick 1; FetchSettled 0 None] Sample.franceShown in
  activeLevels (state w) = ["ADM0"; "ADM1"] ∧
  btnActive <$> adminButtons w = [true; true; false] ∧
  Map.getSource "source-FRA_ADM1" (map w) = None ∧
  Map.getLayer "layer-fill-FRA_ADM1" (map w) = None ∧
  Map.getLayer "layer-line-FRA_ADM1" (map w) = None ∧
  console w = [LoadFailed "FRA" "ADM1"].
Proof. vm_compute. repeat split. Qed.

(** The same on every world: the failure branch never takes the level out
    of the active set that [toggleAdminLevel] put it in. *)
Lemma failed_activation_general iso levelCode w i :
  let w1 := toggleAdminLevel iso levelCode true w in
  let w2 := step (FetchSettled i None) w1 in
  levelCode ∈ activeLevels (state w2) ∧ map w2 = map w1.
Proof.
  cbv zeta. split.
  - destruct (step_settled_active i None
                (toggleAdminLevel iso levelCode true w)) as [Ha _].
    rewrite Ha, toggleAdminLevel_state. cbn [setActive activeLevels].
    unfold JsSet.add, JsSet.has. case_bool_decide; [done|].
    apply elem_of_app. right. by apply list_elem_of_singleton.
  - unfold step. by destruct (inflight _ !! i).
Qed.

(** ** Draw order (C2) *)

(** C2. Layers should sit in rank order whatever the activation order.
    Evaluated on France: ADM0 shown, ADM1 switched on, ADM0 switched off and
    on again.  Both levels are active, and the ADM0 layers, appended last,
    are drawn above the ADM1 layers. *)
Theorem reactivated_level_is_drawn_on_top :
  let w := run [ButtonClick 1; FetchSettled 0 (Some Sample.fra1);
                ButtonClick 0; ButtonClick 0] Sample.franceShown in
  activeLevels (state w) = ["ADM1"; "ADM0"] ∧
  layerId <$> layers (map w) =
    ["layer-fill-FRA_ADM1"; "layer-line-FRA_ADM1";
     "layer-fill-FRA_ADM0"; "layer-line-FRA_ADM0"] ∧
  rankLt "ADM0" "ADM1" ∧
  drawnBelow "layer-line-FRA_ADM1" "layer-fill-FRA_ADM0" (map w) ∧
  ¬ drawOrderByRank "FRA" w.
Proof.
  intros w.
  assert (Ha : activeLevels (state w) = ["ADM1"; "ADM0"])
    by (vm_compute; reflexivity).
  assert (Hl : layerId <$> layers (map w) =
               ["layer-fill-FRA_ADM1"; "layer-line-FRA_ADM1";
                "layer-fill-FRA_ADM0"; "layer-line-FRA_ADM0"])
    by (vm_compute; reflexivity).
  assert (Hr : rankLt "ADM0" "ADM1") by (vm_compute; reflexivity).
  assert (Hb : drawnBelow "layer-line-FRA_ADM1" "layer-fill-FRA_ADM0" (map w))
    by (vm_compute; lia).
  assert (Hn : ¬ drawnBelow "layer-line-FRA_ADM0" "layer-fill-FRA_ADM1" (map w))
    by (vm_compute; lia).
  clearbody w.
  split; [exact Ha|]. split; [exact Hl|].
  split; [exact Hr|]. split; [exact Hb|].
  intros Hinv. apply Hn, Hinv; [| |exact Hr]; rewrite Ha.
  - apply list_elem_of_In. simpl. tauto.
  - apply list_elem_of_In. simpl. tauto.
Qed.

(** ** Country selection (C3, C7) *)

Lemma renderAdminButtons_state iso w : state (renderAdminButtons iso w) = state w.
Proof. unfold renderAdminButtons. by case_match. Qed.

Lemma renderAdminButtons_map iso w : map (renderAdminButtons iso w) = map w.
Proof. unfold renderAdminButtons. by case_match. Qed.

(** The session state after [selectCountry]: the selection and the emptied
    active set are written before the catalog is consulted. *)
Lemma selectCountry_state iso w :
  let base := setActive JsSet.clear (setSelected iso (state w)) in
  state (selectCountry iso w) =
  match terminology (state w) !! iso with
  | None => base
  | Some countryData =>
      match levels countryData with
      | [] => base
      | (level0, _) :: _ => setActive (JsSet.add level0) base
      end
  end.
Proof.
  unfold selectCountry. cbn [withState state setActive setSelected terminology].
  destruct (terminology (state w) !! iso) as [cd|]; [|done].
  destruct (levels cd) as [|[level0 info0] rest].
  - by rewrite renderAdminButtons_state.
  - by rewrite toggleAdminLevel_state, renderAdminButtons_state.
Qed.

Lemma JsSet_add_nil x : JsSet.add x [] = [x].
Proof.
  unfold JsSet.add, JsSet.has. case_bool_decide as H; [|done].
  by apply elem_of_nil in H.
Qed.

Lemma elem_of_JsSet_add x y s : x ∈ JsSet.add y s ↔ x = y ∨ x ∈ s.
Proof.
  unfold JsSet.add, JsSet.has. case_bool_decide as H.
  - split; [by right|]. intros [->|]; done.
  - rewrite elem_of_app, list_elem_of_singleton. tauto.
Qed.

(** None of the layer operations moves the camera. *)
Lemma addSourceAndLayers_camera iso levelCode geojson w :
  camera (map (addSourceAndLayers iso levelCode geojson w)) = camera (map w).
Proof.
  unfold addSourceAndLayers, Map.addSource.
  destruct (Map.getSource _ _); [done|].
  cbn [withMap map Map.on camera]. unfold Map.addLayer.
  by repeat case_match.
Qed.

Lemma loadAndRenderLayer_camera iso levelCode w :
  camera (map (loadAndRenderLayer iso levelCode w)) = camera (map w).
Proof.
  unfold loadAndRenderLayer.
  destruct (Map.getSource _ _).
  - cbn [withMap map]. unfold ensureVisible. by repeat case_match.
  - repeat case_match; try done. apply addSourceAndLayers_camera.
Qed.

Lemma toggleAdminLevel_on_camera iso levelCode w :
  camera (map (toggleAdminLevel iso levelCode true w)) = camera (map w).
Proof. unfold toggleAdminLevel. by rewrite loadAndRenderLayer_camera. Qed.

Lemma selectCountry_camera iso countryData w :
  terminology (state w) !! iso = Some countryData →
  camera (map (selectCountry iso w)) = defaultView countryData.
Proof.
  intros Hcd. unfold selectCountry.
  cbn [withState state setActive setSelected terminology]. rewrite Hcd.
  destruct (levels countryData) as [|[level0 info0] rest].
  - by rewrite renderAdminButtons_map.
  - by rewrite toggleAdminLevel_on_camera, renderAdminButtons_map.
Qed.

(** In an entry listed in ascending rank order the first level has the
    lowest rank. *)
Lemma first_level_lowest countryData level0 info0 rest :
  levels countryData = (level0, info0) :: rest →
  ascendingLevels countryData →
  Forall (rankLt level0) (fst <$> rest).
Proof.
  unfold ascendingLevels. intros ->. rewrite fmap_cons. simpl.
  intros Hs. by apply StronglySorted_inv in Hs as [_ ?].
Qed.

(** C3. For a country without catalog entry [selectCountry] should log and
    leave the session state as it was.  Evaluated on France with ADM0
    shown and the uncatalogued code "XKX": the call logs, but only after it
    has recorded "XKX" as the selected country and emptied the active set
    (the cache is untouched, the France layers stay drawn). *)
Theorem unknown_country_overwrites_selection :
  let w := Sample.franceShown in
  let w' := selectCountry "XKX" w in
  terminology (state w) !! "XKX" = None ∧
  selectedCountryISO (state w) = Some "FRA" ∧
  activeLevels (state w) = ["ADM0"] ∧
  selectedCountryISO (state w') = Some "XKX" ∧
  activeLevels (state w') = [] ∧
  geoJsonCache (state w') = geoJsonCache (state w) ∧
  map w' = map w ∧
  console w' = [NoTerminology "XKX"] ∧
  state w' ≠ state w.
Proof.
  intros w w'.
  assert (H1 : selectedCountryISO (state w) = Some "FRA")
    by (vm_compute; reflexivity).
  assert (H2 : selectedCountryISO (state w') = Some "XKX")
    by (vm_compute; reflexivity).
  repeat split; try (vm_compute; reflexivity); try assumption.
  clearbody w w'. intros Heq. rewrite Heq in H2. congruence.
Qed.

(** The same on every world. *)
Lemma selectCountry_unknown iso w :
  terminology (state w) !! iso = None →
  selectCountry iso w =
  logError (NoTerminology iso)
    (withState (setActive JsSet.clear) (withState (setSelected iso) w)).
Proof.
  intros H. unfold selectCountry.
  cbn [withState state setActive setSelected terminology]. by rewrite H.
Qed.

(** C7 as stated fails on a catalog entry that lists no level: the entry
    exists, and after [selectCountry] no level at all is active. *)
Lemma selectCountry_entry_without_levels :
  is_Some (terminology (state Sample.franceShown) !! "ATA") ∧
  length (activeLevels (state (selectCountry "ATA" Sample.franceShown))) ≠ 1%nat.
Proof.
  split.
  - exists Sample.ata. vm_compute. reflexivity.
  - vm_compute. lia.
Qed.

(** The first listed level need not be the lowest-ranked one either. *)
Example selectCountry_takes_first_listed :
  let india := mkCountryData (mkCamera (78, 22) 4)
                 [("ADM1", mkLevelInfo "State" "IND/ADM1.geojson");
                  ("ADM0", mkLevelInfo "Country" "IND/ADM0.geojson")] in
  activeLevels (state (selectCountry "IND" (initWorld {[ "IND" := india ]} ∅)))
  = ["ADM1"].
Proof. vm_compute. reflexivity. Qed.

(** C7 (amended). For a country with a catalog entry, [selectCountry]
    records it as selected, empties the active set, sends the camera to the
    entry's default view and, when the entry lists at least one level,
    leaves exactly one level active: the first one listed, which has the
    lowest rank when the entry lists its levels in ascending rank order.
    When the entry lists no level, none is active. *)
Theorem selectCountry_activates_first_listed_level iso countryData w
    (Hentry : terminology (state w) !! iso = Some countryData) :
  let w' := selectCountry iso w in
  selectedCountryISO (state w') = Some iso ∧
  camera (map w') = defaultView countryData ∧
  activeLevels (state w') = fst <$> take 1 (levels countryData) ∧
  (∀ level0 info0 rest,
     levels countryData = (level0, info0) :: rest →
     activeLevels (state w') = [level0] ∧
     (ascendingLevels countryData → Forall (rankLt level0) (fst <$> rest))).
Proof.
  cbv zeta. pose proof (selectCountry_state iso w) as Hst.
  cbv zeta in Hst. rewrite Hentry in Hst.
  split_and!.
  - rewrite Hst. by destruct (levels countryData) as [|[??]?].
  - by apply selectCountry_camera.
  - rewrite Hst. destruct (levels countryData) as [|[level0 ?] ?]; [done|].
    cbn [setActive activeLevels JsSet.clear]. by rewrite JsSet_add_nil.
  - intros level0 info0 rest Hl. split.
    + rewrite Hst, Hl. cbn [setActive activeLevels JsSet.clear].
      by rewrite JsSet_add_nil.
    + by apply first_level_lowest with info0.
Qed.

Lemma selectCountry_activates_first_listed_level_witness :
  terminology (state Sample.franceShown) !! "USA" = Some Sample.usa ∧
  activeLevels (state (selectCountry "USA" Sample.franceShown)) = ["ADM0"] ∧
  camera (map (selectCountry "USA" Sample.franceShown)) = mkCamera (-98, 39) 3.
Proof.
  assert (H : terminology (state Sample.franceShown) !! "USA" = Some Sample.usa)
    by (vm_compute; reflexivity).
  destruct (selectCountry_activates_first_listed_level "USA" Sample.usa
              Sample.franceShown H) as (_ & Hc & Ha & _).
  split; [exact H|]. split; [exact Ha | exact Hc].
Defined.

(** ** Search navigation (C6) *)



(** With both fetches answered, in either order, the layers of both levels
    are drawn (on top of the France layers, which nothing removed). *)
Example search_result_scenario_layers :
  layerId <$> layers (map (run [SearchResultClick Sample.cookCounty;
                                FetchSettled 0 (Some Sample.usa0);
                                FetchSettled 0 (Some Sample.usa2)]
                               Sample.franceShown)) =
  ["layer-fill-FRA_ADM0"; "layer-line-FRA_ADM0";
   "layer-fill-USA_ADM0"; "layer-line-USA_ADM0";
   "layer-fill-USA_ADM2"; "layer-line-USA_ADM2"].
Proof. vm_compute. reflexivity. Qed.

(** ** Feature precedence (C5) *)

Section Sorting.
Implicit Types (f g : Feature) (l : list Feature).





End Sorting.



(** ** Popup content (C9) *)

Lemma mediaOf_cases record shapeName :
  mediaOf record shapeName =
    (match videos record with
     | Some (v :: _) => [Video v]
     | _ => []
     end ++
     match images record with
     | Some (i :: _) => [Image i shapeName]
     | _ => []
     end)%list.
Proof. done. Qed.





(** A region with a full record: the first video, then the first image. *)
Example popup_of_documented_region :
  let p := popupOf (state Sample.franceShown)
                   (mkFeature "Ile-de-France" "ADM1" "FRA") (2, 48) in
  popupSubtitle p = "Region" ∧
  popupMedia p = [Video "paris1.mp4"; Image "paris1.jpg" "Ile-de-France"] ∧
  popupDescription p = Some "Capital region".
Proof. vm_compute. repeat split. Qed.

(** ** Fetching, caching and rendering (C4, C8, C10) *)

Lemma fill_line_ids_differ cacheKey :
  layerIdFillOf cacheKey ≠ layerIdLineOf cacheKey.
Proof. unfold layerIdFillOf, layerIdLineOf. simpl. discriminate. Qed.

Lemma getLayer_None id m :
  Map.getLayer id m = None ↔ Forall (λ l, layerId l ≠ id) (layers m).
Proof. unfold Map.getLayer. by rewrite fmap_None, list_find_None. Qed.

Lemma addLayer_fresh id ty src m :
  Map.getLayer id m = None →
  Map.addLayer id ty src m =
  mkMap (sources m) (layers m ++ [mkLayer id ty src true]) (camera m)
        (listeners m) (popups m).
Proof. intros Hl. unfold Map.addLayer. by rewrite Hl. Qed.

(** On a renderer that holds nothing for the key, the tail of
    [loadAndRenderLayer] adds the source and stacks the key's two layers on
    top of everything drawn so far. *)
Lemma addSourceAndLayers_fresh iso levelCode geojson w :
  let cacheKey := cacheKeyOf iso levelCode in
  keyAbsent cacheKey (map w) →
  sources (map (addSourceAndLayers iso levelCode geojson w)) =
    <[sourceIdOf cacheKey := geojson]> (sources (map w)) ∧
  layers (map (addSourceAndLayers iso levelCode geojson w)) =
    (layers (map w) ++ layersOfKey cacheKey)%list ∧
  console (addSourceAndLayers iso levelCode geojson w) = console w.
Proof.
  intros cacheKey (Hsrc & Hfill & Hline).
  unfold addSourceAndLayers, Map.addSource. fold cacheKey. rewrite Hsrc.
  set (m1 := mkMap (<[sourceIdOf cacheKey := geojson]> (sources (map w)))
                   (layers (map w)) (camera (map w)) (listeners (map w))
                   (popups (map w))).
  assert (Hf1 : Map.getLayer (layerIdFillOf cacheKey) m1 = None).
  { apply getLayer_None. by apply getLayer_None in Hfill. }
  rewrite (addLayer_fresh _ _ _ m1 Hf1).
  set (m2 := mkMap (sources m1) _ _ _ _).
  assert (Hl2 : Map.getLayer (layerIdLineOf cacheKey) m2 = None).
  { apply getLayer_None. subst m2 m1. cbn [layers].
    apply Forall_app. split; [by apply getLayer_None in Hline|].
    constructor; [|constructor]. apply fill_line_ids_differ. }
  rewrite (addLayer_fresh _ _ _ m2 Hl2).
  subst m2 m1. cbn [withMap map console Map.on sources layers].
  split; [done|]. split; [|done].
  by rewrite <- app_assoc.
Qed.

(** The cache after one event: only a fetch that settles successfully
    writes it, under the key of the request it answers. *)
Lemma step_cache e w :
  geoJsonCache (state (step e w)) =
  match e with
  | FetchSettled i (Some data) =>
      match inflight w !! i with
      | Some r =>
          <[cacheKeyOf (reqIso r) (reqLevel r) := data]>
            (geoJsonCache (state w))
      | None => geoJsonCache (state w)
      end
  | _ => geoJsonCache (state w)
  end.
Proof.
  destruct e as [iso|k|item|i outcome]; unfold step.
  - pose proof (selectCountry_state iso w) as Hs. cbv zeta in Hs. rewrite Hs.
    by repeat case_match.
  - unfold adminButtonClick. destruct (adminButtons w !! k); [|done].
    rewrite toggleAdminLevel_state. by case_match.
  - unfold selectSearchResult. rewrite toggleAdminLevel_state.
    cbn [withMap state setActive geoJsonCache]. case_decide; [done|].
    pose proof (selectCountry_state (iso item) w) as Hs. cbv zeta in Hs.
    rewrite Hs. by repeat case_match.
  - destruct (inflight w !! i) as [r|]; [|by destruct outcome].
    rewrite resume_state. by destruct outcome.
Qed.

(** An activation for a key that is neither drawn nor cached asks the
    network, whatever is already in flight. *)
Lemma activation_fetches iso levelCode countryData info w :
  Map.getSource (sourceIdOf (cacheKeyOf iso levelCode)) (map w) = None →
  geoJsonCache (state w) !! cacheKeyOf iso levelCode = None →
  terminology (state w) !! iso = Some countryData →
  levelLookup levelCode (levels countryData) = Some info →
  let url := config.dataBaseUrl +:+ "/" +:+ file info in
  network (toggleAdminLevel iso levelCode true w) = (network w ++ [url])%list ∧
  inflight (toggleAdminLevel iso levelCode true w) =
    (inflight w ++ [mkRequest iso levelCode url])%list.
Proof.
  intros Hsrc Hcache Hcd Hl. cbv zeta.
  unfold toggleAdminLevel, loadAndRenderLayer.
  cbn [withButtons withState map state geoJsonCache terminology setActive].
  by rewrite Hsrc, Hcache, Hcd, Hl.
Qed.

(** C4 as stated fails: France is chosen, then the United States before the
    France outline has arrived.  The France request is stale when its
    answer comes, yet its source and layers are added to the renderer. *)
Lemma stale_fetch_is_rendered :
  let w := run [DropdownChange "FRA"; DropdownChange "USA"] Sample.start in
  let r := mkRequest "FRA" "ADM0" (Sample.urlOf "FRA/ADM0.geojson") in
  inflight w !! 0%nat = Some r ∧
  stale r w ∧
  ¬ resultDiscarded 0 (Some Sample.fra0) w ∧
  layerId <$> layers (map (step (FetchSettled 0 (Some Sample.fra0)) w)) =
    ["layer-fill-FRA_ADM0"; "layer-line-FRA_ADM0"].
Proof.
  intros w r.
  assert (Hl0 : layers (map w) = []) by (vm_compute; reflexivity).
  assert (Hl1 : layerId <$> layers (map (step (FetchSettled 0
                  (Some Sample.fra0)) w)) =
                ["layer-fill-FRA_ADM0"; "layer-line-FRA_ADM0"])
    by (vm_compute; reflexivity).
  assert (Hs : selectedCountryISO (state w) = Some "USA")
    by (vm_compute; reflexivity).
  assert (Hi : inflight w !! 0%nat = Some r) by (vm_compute; reflexivity).
  clearbody w. split; [exact Hi|]. split; [|split; [|exact Hl1]].
  - left. rewrite Hs. subst r. simpl. discriminate.
  - intros [_ Hd]. rewrite Hd, Hl0 in Hl1. discriminate.
Qed.

(** C4 (amended). The answer to a fetch is never discarded: whatever the
    selected country and the active set are when it arrives, the dataset is
    cached under the key the request was made for and, the renderer holding
    nothing for that key, the key's source and two layers are added on top
    of the layer stack; the selection and the active set are not touched. *)
Theorem settled_fetch_is_rendered_under_its_own_key w i r data
    (Hreq : inflight w !! i = Some r)
    (Habsent : keyAbsent (cacheKeyOf (reqIso r) (reqLevel r)) (map w)) :
  let cacheKey := cacheKeyOf (reqIso r) (reqLevel r) in
  let w' := step (FetchSettled i (Some data)) w in
  geoJsonCache (state w') = <[cacheKey := data]> (geoJsonCache (state w)) ∧
  sources (map w') = <[sourceIdOf cacheKey := data]> (sources (map w)) ∧
  layers (map w') = (layers (map w) ++ layersOfKey cacheKey)%list ∧
  selectedCountryISO (state w') = selectedCountryISO (state w) ∧
  activeLevels (state w') = activeLevels (state w).
Proof.
  cbv zeta.
  destruct (step_settled_active i (Some data) w) as [Ha Hs].
  pose proof (addSourceAndLayers_fresh (reqIso r) (reqLevel r) data
    (withState (setCache (insert (cacheKeyOf (reqIso r) (reqLevel r)) data))
       (mkWorld (state w) (map w) (adminButtons w) (delete i (inflight w))
                (network w) (console w)))) as Hfresh.
  cbv zeta in Hfresh. destruct (Hfresh Habsent) as (H1 & H2 & _).
  split; [by rewrite step_cache, Hreq|].
  split; [|split; [|split; [exact Hs|exact Ha]]].
  - unfold step. rewrite Hreq. exact H1.
  - unfold step. rewrite Hreq. exact H2.
Qed.

Lemma settled_fetch_is_rendered_under_its_own_key_witness :
  let w := run [DropdownChange "FRA"; DropdownChange "USA"] Sample.start in
  selectedCountryISO (state w) = Some "USA" ∧
  layers (map (step (FetchSettled 0 (Some Sample.fra0)) w)) =
    (layers (map w) ++ layersOfKey "FRA_ADM0")%list.
Proof.
  intros w.
  assert (Hi : inflight w !! 0%nat =
               Some (mkRequest "FRA" "ADM0" (Sample.urlOf "FRA/ADM0.geojson")))
    by (vm_compute; reflexivity).
  assert (Hk : keyAbsent "FRA_ADM0" (map w)) by (vm_compute; repeat split).
  split; [vm_compute; reflexivity|].
  exact (proj1 (proj2 (proj2
    (settled_fetch_is_rendered_under_its_own_key w 0
       (mkRequest "FRA" "ADM0" (Sample.urlOf "FRA/ADM0.geojson"))
       Sample.fra0 Hi Hk)))).
Defined.

Lemma addLayer_sources id ty src m : sources (Map.addLayer id ty src m) = sources m.
Proof. unfold Map.addLayer. by repeat case_match. Qed.

Lemma addSourceAndLayers_queue iso levelCode geojson w :
  network (addSourceAndLayers iso levelCode geojson w) = network w ∧
  inflight (addSourceAndLayers iso levelCode geojson w) = inflight w.
Proof. unfold addSourceAndLayers. by case_match. Qed.


(** When both answers arrive, the second overwrites the cache entry and
    then fails on [addSource], the source being there already: what is
    drawn is the first answer, what is cached is the second. *)
Example racing_fetches_both_settle :
  let w := run [SearchResultClick Sample.unitedStates;
                FetchSettled 0 (Some Sample.usa0);
                FetchSettled 0 (Some Sample.usa0')] Sample.franceShown in
  Map.getSource "source-USA_ADM0" (map w) = Some Sample.usa0 ∧
  geoJsonCache (state w) !! "USA_ADM0" = Some Sample.usa0' ∧
  console w = [Uncaught "USA" "ADM0"].
Proof. vm_compute. repeat split. Qed.



(** C10. A fetch that fails leaves the cache (and the renderer) as they
    were and only logs; the cache is written by no event other than a fetch
    settling successfully; and as nothing was cached for the failed key, the
    next activation of that level asks the network again. *)
Theorem failed_fetch_leaves_cache_untouched w i r
    (Hreq : inflight w !! i = Some r) :
  let cacheKey := cacheKeyOf (reqIso r) (reqLevel r) in
  let w1 := step (FetchSettled i None) w in
  geoJsonCache (state w1) = geoJsonCache (state w) ∧
  map w1 = map w ∧
  console w1 = (console w ++ [LoadFailed (reqIso r) (reqLevel r)])%list ∧
  (∀ e, geoJsonCache (state (step e w)) ≠ geoJsonCache (state w) →
        ∃ j r' data, e = FetchSettled j (Some data) ∧
                     inflight w !! j = Some r' ∧
                     geoJsonCache (state (step e w)) =
                       <[cacheKeyOf (reqIso r') (reqLevel r') := data]>
                         (geoJsonCache (state w))) ∧
  (∀ countryData info,
     Map.getSource (sourceIdOf cacheKey) (map w) = None →
     geoJsonCache (state w) !! cacheKey = None →
     terminology (state w) !! reqIso r = Some countryData →
     levelLookup (reqLevel r) (levels countryData) = Some info →
     let w2 := toggleAdminLevel (reqIso r) (reqLevel r) true w1 in
     network w2 =
       (network w1 ++ [config.dataBaseUrl +:+ "/" +:+ file info])%list ∧
     mkRequest (reqIso r) (reqLevel r)
               (config.dataBaseUrl +:+ "/" +:+ file info) ∈ inflight w2).
Proof.
  cbv zeta.
  assert (Hw1 : step (FetchSettled i None) w =
                logError (LoadFailed (reqIso r) (reqLevel r))
                  (mkWorld (state w) (map w) (adminButtons w)
                           (delete i (inflight w)) (network w) (console w))).
  { unfold step. by rewrite Hreq. }
  split_and!.
  - by rewrite Hw1.
  - by rewrite Hw1.
  - by rewrite Hw1.
  - intros e Hne. rewrite step_cache in Hne.
    destruct e as [?|?|?|j [data|]]; try done.
    destruct (inflight w !! j) as [r'|] eqn:Hj; [|done].
    exists j, r', data. split; [done|]. split; [done|].
    by rewrite step_cache, Hj.
  - intros cd info Hs Hc Hcd Hl.
    destruct (activation_fetches (reqIso r) (reqLevel r) cd info
                (step (FetchSettled i None) w)) as [Hn Hq];
      [by rewrite Hw1|by rewrite Hw1|by rewrite Hw1|exact Hl|].
    split; [exact Hn|]. rewrite Hq. apply elem_of_app. right. by left.
Qed.

(** On the page: the ADM1 button is clicked, the fetch fails, the button is
    clicked off and on again; the file is requested a second time. *)
Example failed_fetch_is_retried_on_next_activation :
  network (run [ButtonClick 1; FetchSettled 0 None; ButtonClick 1; ButtonClick 1]
               Sample.franceShown) =
  [Sample.urlOf "FRA/ADM0.geojson"; Sample.urlOf "FRA/ADM1.geojson";
   Sample.urlOf "FRA/ADM1.geojson"].
Proof. vm_compute. reflexivity. Qed.

(** France's ADM1 fails to load and the level is activated again. *)
Lemma failed_fetch_leaves_cache_untouched_witness :
  let w := step (ButtonClick 1) Sample.franceShown in
  let w1 := step (FetchSettled 0 None) w in
  geoJsonCache (state w1) = geoJsonCache (state w) ∧
  geoJsonCache (state w1) !! "FRA_ADM1" = None ∧
  network (toggleAdminLevel "FRA" "ADM1" true w1) =
    (network w1 ++ [Sample.urlOf "FRA/ADM1.geojson"])%list.
Proof.
  intros w w1.
  assert (Hi : inflight w !! 0%nat =
               Some (mkRequest "FRA" "ADM1" (Sample.urlOf "FRA/ADM1.geojson")))
    by (vm_compute; reflexivity).
  destruct (failed_fetch_leaves_cache_untouched w 0 _ Hi)
    as (Hc & _ & _ & _ & Hretry).
  destruct (Hretry Sample.fra (mkLevelInfo "Region" "FRA/ADM1.geojson"))
    as [Hn _]; try (vm_compute; reflexivity).
  split; [exact Hc|]. split; [vm_compute; reflexivity|exact Hn].
Defined.

(** * Further properties of the code *)

(** ** Identifiers *)

Lemma sourceIdOf_inj a b : sourceIdOf a = sourceIdOf b → a = b.
Proof. unfold sourceIdOf. simpl. intros H. by injection H. Qed.

Lemma layerIdFillOf_inj a b : layerIdFillOf a = layerIdFillOf b → a = b.
Proof. unfold layerIdFillOf. simpl. intros H. by injection H. Qed.

Lemma layerIdLineOf_inj a b : layerIdLineOf a = layerIdLineOf b → a = b.
Proof. unfold layerIdLineOf. simpl. intros H. by injection H. Qed.

Lemma fill_id_is_no_line_id a b : layerIdFillOf a ≠ layerIdLineOf b.
Proof. unfold layerIdFillOf, layerIdLineOf. simpl. discriminate. Qed.

(** ** The layer stack as a list of drawn keys *)

Lemma filter_all {A} (P : A → Prop) `{∀ x, Decision (P x)} (l : list A) :
  Forall P l → filter P l = l.
Proof.
  induction 1 as [|x l Hx _ IH]; [done|].
  by rewrite filter_cons_True, IH.
Qed.

Lemma layers_of_keys_ids ks l :
  l ∈ ks ≫= layersOfKey →
  ∃ k, k ∈ ks ∧ layerSource l = sourceIdOf k ∧ visible l = true ∧
       (layerId l = layerIdFillOf k ∨ layerId l = layerIdLineOf k).
Proof.
  rewrite list_elem_of_bind. intros (k & Hl & Hk). exists k. split; [done|].
  unfold layersOfKey in Hl.
  apply elem_of_cons in Hl as [->|Hl]; [simpl; auto|].
  apply list_elem_of_singleton in Hl as ->. simpl. auto.
Qed.

Ltac id_clash :=
  match goal with
  | H : layerIdFillOf _ = layerIdLineOf _ |- _ =>
      by apply fill_id_is_no_line_id in H
  | H : layerIdLineOf _ = layerIdFillOf _ |- _ =>
      symmetry in H; by apply fill_id_is_no_line_id in H
  | H : layerIdFillOf _ = layerIdFillOf _ |- _ =>
      apply layerIdFillOf_inj in H; by subst
  | H : layerIdLineOf _ = layerIdLineOf _ |- _ =>
      apply layerIdLineOf_inj in H; by subst
  | H : sourceIdOf _ = sourceIdOf _ |- _ =>
      apply sourceIdOf_inj in H; by subst
  | H : ¬ (_ ≠ _) |- _ => apply dec_stable in H; id_clash
  | H : ?x ≠ ?x |- _ => by destruct H
  end.

(** Taking the two layers of a key out of the stack. *)
Lemma remove_pair k ks :
  filter (λ l, layerId l ≠ layerIdLineOf k)
    (filter (λ l, layerId l ≠ layerIdFillOf k) (ks ≫= layersOfKey)) =
  filter (λ k', k' ≠ k) ks ≫= layersOfKey.
Proof.
  induction ks as [|k' ks IH]; [done|].
  rewrite bind_cons, !filter_app, IH. unfold layersOfKey at 1.
  destruct (decide (k' = k)) as [->|Hne].
  - rewrite (filter_cons_False _ k) by (intros H; by apply H).
    rewrite !filter_cons, !filter_nil. cbn [layerId].
    repeat case_decide; try id_clash; try done;
      rewrite ?filter_cons, ?filter_nil; cbn [layerId];
      repeat case_decide; try id_clash; done.
  - rewrite (filter_cons_True _ k') by done. rewrite bind_cons.
    rewrite !filter_cons, !filter_nil. cbn [layerId].
    repeat case_decide; try id_clash; try done;
      rewrite ?filter_cons, ?filter_nil; cbn [layerId];
      repeat case_decide; try id_clash; done.
Qed.

Lemma draws_key_absent ks m k : draws ks m → k ∉ ks → keyAbsent k m.
Proof.
  intros (_ & Hl & Hs) Hk. split_and!.
  - destruct (Map.getSource (sourceIdOf k) m) as [g|] eqn:Hg; [|done].
    destruct (proj1 (Hs (sourceIdOf k))) as (k' & Hk' & Heq).
    { unfold Map.getSource in Hg. by rewrite Hg. }
    apply sourceIdOf_inj in Heq as ->. done.
  - apply getLayer_None. rewrite Hl. apply Forall_forall. intros l Hin.
    apply layers_of_keys_ids in Hin as (k' & Hk' & _ & _ & [Hid|Hid]);
      rewrite Hid; intros Heq.
    + apply layerIdFillOf_inj in Heq as ->. done.
    + symmetry in Heq. by apply fill_id_is_no_line_id in Heq.
  - apply getLayer_None. rewrite Hl. apply Forall_forall. intros l Hin.
    apply layers_of_keys_ids in Hin as (k' & Hk' & _ & _ & [Hid|Hid]);
      rewrite Hid; intros Heq.
    + by apply fill_id_is_no_line_id in Heq.
    + apply layerIdLineOf_inj in Heq as ->. done.
Qed.

Lemma draws_source ks m k :
  draws ks m → is_Some (Map.getSource (sourceIdOf k) m) ↔ k ∈ ks.
Proof.
  intros (_ & _ & Hs). unfold Map.getSource. rewrite Hs. split.
  - intros (k' & Hk' & Heq). by apply sourceIdOf_inj in Heq as ->.
  - intros Hk. by exists k.
Qed.

Lemma draws_ext ks m m' :
  sources m' = sources m → layers m' = layers m → draws ks m → draws ks m'.
Proof. intros Hs Hl (? & ? & ?). unfold draws. by rewrite Hs, Hl. Qed.

Lemma consistent_ext w w' :
  sources (map w') = sources (map w) →
  layers (map w') = layers (map w) →
  geoJsonCache (state w') = geoJsonCache (state w) →
  consistent w → consistent w'.
Proof.
  intros Hs Hl Hc (ks & Hd & Hk). exists ks. rewrite Hc.
  split; [by apply (draws_ext ks (map w))|done].
Qed.

(** All layers the code creates are visible, so "ensure visibility" changes
    nothing. *)
Lemma ensureVisible_draws ks id m : draws ks m → ensureVisible id m = m.
Proof.
  intros (_ & Hl & _). unfold ensureVisible.
  destruct (Map.getLayer id m) as [found|]; [|done].
  unfold Map.setVisible. destruct m as [srcs ls cam lis pops].
  simpl in *. f_equal. subst ls.
  rewrite <- (list_fmap_id (ks ≫= layersOfKey)) at 2.
  apply Forall_fmap_ext, Forall_forall. intros l Hin.
  apply layers_of_keys_ids in Hin as (_ & _ & _ & Hv & _).
  destruct l as [i ty src v]. simpl in *. subst v. by case_decide.
Qed.

(** Activating a level that is drawn changes nothing at all. *)
Lemma loadAndRenderLayer_drawn ks iso levelCode w :
  draws ks (map w) → cacheKeyOf iso levelCode ∈ ks →
  loadAndRenderLayer iso levelCode w = w.
Proof.
  intros Hd Hk. unfold loadAndRenderLayer.
  apply (draws_source _ _ _ Hd) in Hk as [g Hg]. rewrite Hg.
  unfold withMap.
  rewrite (ensureVisible_draws ks (layerIdFillOf _) (map w)) by done.
  rewrite (ensureVisible_draws ks) by done.
  by destruct w.
Qed.

Lemma addSourceAndLayers_draws ks iso levelCode geojson w :
  draws ks (map w) →
  draws (if decide (cacheKeyOf iso levelCode ∈ ks) then ks
         else ks ++ [cacheKeyOf iso levelCode])
        (map (addSourceAndLayers iso levelCode geojson w)).
Proof.
  intros Hd. case_decide as Hk.
  - apply (draws_source _ _ _ Hd) in Hk as [g Hg].
    unfold addSourceAndLayers, Map.addSource. by rewrite Hg.
  - pose proof (draws_key_absent _ _ _ Hd Hk) as Habs.
    destruct (addSourceAndLayers_fresh iso levelCode geojson w Habs)
      as (Hs & Hl & _).
    destruct Hd as (Hnd & Hl0 & Hs0). split_and!.
    + apply NoDup_app. split; [done|]. split; [|apply NoDup_singleton].
      intros x Hx ->%list_elem_of_singleton. done.
    + rewrite Hl, Hl0, bind_app. by f_equal.
    + intros id. rewrite Hs, lookup_insert_is_Some', Hs0. split.
      * intros [<-|(k & Hk' & ->)].
        -- eexists. split; [|done]. apply elem_of_app. right. by left.
        -- exists k. split; [|done]. apply elem_of_app. by left.
      * intros (k & [Hk' | ->%list_elem_of_singleton]%elem_of_app & ->).
        -- right. by exists k.
        -- by left.
Qed.

Lemma addSourceAndLayers_consistent iso levelCode geojson w :
  consistent w →
  is_Some (geoJsonCache (state w) !! cacheKeyOf iso levelCode) →
  consistent (addSourceAndLayers iso levelCode geojson w).
Proof.
  intros (ks & Hd & Hc) Hk.
  eexists. split; [by apply addSourceAndLayers_draws|].
  rewrite addSourceAndLayers_state. case_decide; [done|].
  apply Forall_app. split; [done|]. by constructor.
Qed.

Lemma loadAndRenderLayer_consistent iso levelCode w :
  consistent w → consistent (loadAndRenderLayer iso levelCode w).
Proof.
  intros Hw. unfold loadAndRenderLayer.
  destruct (Map.getSource _ _) eqn:Hs.
  - destruct Hw as (ks & Hd & Hc). exists ks.
    cbn [withMap map state].
    rewrite (ensureVisible_draws ks (layerIdFillOf _) (map w)) by done.
    by rewrite (ensureVisible_draws ks).
  - destruct (geoJsonCache _ !! _) eqn:Hc.
    + apply addSourceAndLayers_consistent; [done|]. by rewrite Hc.
    + by repeat case_match.
Qed.

Lemma resume_consistent r outcome w :
  consistent w → consistent (loadAndRenderLayer_resume r outcome w).
Proof.
  intros Hw. unfold loadAndRenderLayer_resume. destruct outcome as [data|].
  - apply addSourceAndLayers_consistent.
    + destruct Hw as (ks & Hd & Hc). exists ks. split; [done|].
      cbn [withState state setCache geoJsonCache].
      eapply Forall_impl; [exact Hc|]. intros k Hk. simpl in Hk.
      rewrite lookup_insert_is_Some'. by right.
    + cbn [withState state setCache geoJsonCache].
      rewrite lookup_insert_is_Some'. by left.
  - done.
Qed.

(** [removeLayer]: the guards change nothing, removing what is absent being
    a no-op. *)
Lemma removeLayer_layers iso levelCode w :
  layers (map (removeLayer iso levelCode w)) =
  filter (λ l, layerId l ≠ layerIdLineOf (cacheKeyOf iso levelCode))
    (filter (λ l, layerId l ≠ layerIdFillOf (cacheKeyOf iso levelCode))
       (layers (map w))).
Proof.
  unfold removeLayer. cbn [withMap map].
  set (fillId := layerIdFillOf _). set (lineId := layerIdLineOf _).
  set (sid := sourceIdOf _).
  assert (H1 : layers (match Map.getLayer fillId (map w) with
                       | Some _ => Map.removeLayer fillId (map w)
                       | None => map w
                       end) =
               filter (λ l, layerId l ≠ fillId) (layers (map w))).
  { destruct (Map.getLayer fillId (map w)) eqn:Hg; [done|].
    apply getLayer_None in Hg. by rewrite filter_all. }
  set (m1 := match Map.getLayer fillId (map w) with
             | Some _ => _ | None => _ end) in *.
  assert (H2 : layers (match Map.getLayer lineId m1 with
                       | Some _ => Map.removeLayer lineId m1
                       | None => m1
                       end) =
               filter (λ l, layerId l ≠ lineId) (layers m1)).
  { destruct (Map.getLayer lineId m1) eqn:Hg; [done|].
    apply getLayer_None in Hg. by rewrite filter_all. }
  set (m2 := match Map.getLayer lineId m1 with
             | Some _ => _ | None => _ end) in *.
  rewrite <- H1, <- H2.
  destruct (Map.getSource sid m2); [|done].
  unfold Map.removeSource. by case_bool_decide.
Qed.

Lemma removeLayer_sources iso levelCode w :
  let sid := sourceIdOf (cacheKeyOf iso levelCode) in
  sources (map (removeLayer iso levelCode w)) =
  if bool_decide (Exists (λ l, layerSource l = sid)
                    (layers (map (removeLayer iso levelCode w))))
  then sources (map w) else delete sid (sources (map w)).
Proof.
  intros sid. pose proof (removeLayer_layers iso levelCode w) as Hl.
  rewrite Hl. clear Hl.
  unfold removeLayer. cbn [withMap map]. fold sid.
  set (fillId := layerIdFillOf _). set (lineId := layerIdLineOf _).
  assert (H1 : ∀ id m, sources (match Map.getLayer id m with
                                | Some _ => Map.removeLayer id m
                                | None => m
                                end) = sources m)
    by (intros; by case_match).
  assert (L1 : ∀ id m, layers (match Map.getLayer id m with
                               | Some _ => Map.removeLayer id m
                               | None => m
                               end) = filter (λ l, layerId l ≠ id) (layers m)).
  { intros id m. destruct (Map.getLayer id m) eqn:Hg; [done|].
    apply getLayer_None in Hg. by rewrite filter_all. }
  set (m2 := match Map.getLayer lineId _ with Some _ => _ | None => _ end).
  assert (Hs2 : sources m2 = sources (map w)) by (subst m2; by rewrite !H1).
  assert (Hl2 : layers m2 = filter (λ l, layerId l ≠ lineId)
                  (filter (λ l, layerId l ≠ fillId) (layers (map w))))
    by (subst m2; by rewrite !L1).
  rewrite <- Hl2.
  destruct (Map.getSource sid m2) eqn:Hg.
  - unfold Map.removeSource. case_bool_decide; [done|]. simpl. by rewrite Hs2.
  - unfold Map.getSource in Hg. rewrite Hs2 in Hg.
    rewrite Hs2. case_bool_decide; [done|]. by rewrite delete_id.
Qed.

Lemma removeLayer_draws ks iso levelCode w :
  draws ks (map w) →
  draws (filter (λ k, k ≠ cacheKeyOf iso levelCode) ks)
        (map (removeLayer iso levelCode w)).
Proof.
  intros (Hnd & Hl & Hs).
  assert (Hl' : layers (map (removeLayer iso levelCode w)) =
                filter (λ k, k ≠ cacheKeyOf iso levelCode) ks ≫= layersOfKey).
  { by rewrite removeLayer_layers, Hl, remove_pair. }
  split_and!; [by apply NoDup_filter|done|].
  pose proof (removeLayer_sources iso levelCode w) as Hsrc. cbv zeta in Hsrc.
  rewrite Hl' in Hsrc. rewrite bool_decide_eq_false_2 in Hsrc.
  - intros id. rewrite Hsrc, lookup_delete_is_Some, Hs. split.
    + intros (Hne & k & Hk & ->). exists k. split; [|done].
      apply list_elem_of_filter. split; [|done]. by intros ->.
    + intros (k & [Hne Hk]%list_elem_of_filter & ->). split.
      * intros Heq%sourceIdOf_inj. done.
      * by exists k.
  - rewrite Exists_exists. intros (l & Hin & Hsrc').
    apply layers_of_keys_ids in Hin as (k & [Hne _]%list_elem_of_filter & Hls & _).
    rewrite Hls in Hsrc'. by apply sourceIdOf_inj in Hsrc'.
Qed.

Lemma removeLayer_consistent iso levelCode w :
  consistent w → consistent (removeLayer iso levelCode w).
Proof.
  intros (ks & Hd & Hc). eexists. split; [by apply removeLayer_draws|].
  rewrite removeLayer_state.
  apply Forall_forall. intros k [_ Hk]%list_elem_of_filter.
  rewrite Forall_forall in Hc. by apply Hc.
Qed.

Lemma toggleAdminLevel_consistent iso levelCode shouldEnable w :
  consistent w → consistent (toggleAdminLevel iso levelCode shouldEnable w).
Proof.
  intros Hw. unfold toggleAdminLevel. destruct shouldEnable.
  - apply loadAndRenderLayer_consistent. revert Hw. by apply consistent_ext.
  - apply removeLayer_consistent. revert Hw. by apply consistent_ext.
Qed.

Lemma selectCountry_consistent iso w :
  consistent w → consistent (selectCountry iso w).
Proof.
  intros Hw. unfold selectCountry.
  cbn [withState state setActive setSelected terminology].
  destruct (terminology (state w) !! iso) as [cd|].
  - assert (Hb : consistent (renderAdminButtons iso
                   (withMap (Map.flyTo (defaultView cd))
                      (withState (setActive JsSet.clear)
                         (withState (setSelected iso) w))))).
    { revert Hw.
      apply consistent_ext;
        [by rewrite renderAdminButtons_map|by rewrite renderAdminButtons_map
        |by rewrite renderAdminButtons_state]. }
    destruct (levels cd) as [|[level0 ?] ?]; [done|].
    by apply toggleAdminLevel_consistent.
  - revert Hw. by apply consistent_ext.
Qed.

Lemma step_consistent e w : consistent w → consistent (step e w).
Proof.
  intros Hw. destruct e as [iso|k|item|i outcome]; unfold step.
  - by apply selectCountry_consistent.
  - unfold adminButtonClick. destruct (adminButtons w !! k); [|done].
    by apply toggleAdminLevel_consistent.
  - unfold selectSearchResult. apply toggleAdminLevel_consistent.
    case_decide.
    + revert Hw. by apply consistent_ext.
    + apply (selectCountry_consistent (iso item)) in Hw. revert Hw.
      by apply consistent_ext.
  - destruct (inflight w !! i); [|done].
    apply resume_consistent. revert Hw. by apply consistent_ext.
Qed.

Lemma run_snoc es e w : run (es ++ [e]) w = step e (run es w).
Proof. unfold run. by rewrite foldl_app. Qed.

Lemma run_consistent es w : consistent w → consistent (run es w).
Proof.
  intros Hw. induction es as [|e es IH] using rev_ind; [done|].
  rewrite run_snoc. by apply step_consistent.
Qed.

Lemma initWorld_consistent t c : consistent (initWorld t c).
Proof.
  exists []. split; [|constructor]. split_and!; [constructor|done|].
  intros id. simpl. rewrite lookup_empty. split.
  - by intros [? ?].
  - intros (k & Hk & _). by apply elem_of_nil in Hk.
Qed.

Lemma layer_ids_NoDup ks : NoDup ks → NoDup (layerId <$> (ks ≫= layersOfKey)).
Proof.
  induction 1 as [|k ks Hk Hnd IH]; [constructor|].
  rewrite bind_cons. simpl.
  assert (Hrest : ∀ id, id ∈ layerId <$> (ks ≫= layersOfKey) →
            ∃ k', k' ∈ ks ∧ (id = layerIdFillOf k' ∨ id = layerIdLineOf k')).
  { intros id (l & -> & Hin)%list_elem_of_fmap.
    apply layers_of_keys_ids in Hin as (k' & ? & _ & _ & ?). by exists k'. }
  constructor; [|constructor; [|done]].
  - intros [Heq|Hin]%elem_of_cons; [id_clash|].
    apply Hrest in Hin as (k' & Hk' & [Heq|Heq]); [|id_clash].
    apply layerIdFillOf_inj in Heq as ->. done.
  - intros Hin. apply Hrest in Hin as (k' & Hk' & [Heq|Heq]); [id_clash|].
    apply layerIdLineOf_inj in Heq as ->. done.
Qed.

(** X1. Whatever the user does and however the fetches settle, the layer
    stack is made of adjacent fill/line pairs, one pair per data source and
    one data source per pair, no layer id occurs twice, and every key that
    is drawn has its dataset in the cache. *)
Theorem renderer_stays_consistent t c es :
  let w := run es (initWorld t c) in
  consistent w ∧ NoDup (layerId <$> layers (map w)).
Proof.
  cbv zeta.
  pose proof (run_consistent es _ (initWorld_consistent t c)) as Hc.
  split; [done|]. destruct Hc as (ks & (Hnd & Hl & _) & _).
  rewrite Hl. by apply layer_ids_NoDup.
Qed.

Lemma removeLayer_listeners iso levelCode w :
  listeners (map (removeLayer iso levelCode w)) = listeners (map w).
Proof.
  unfold removeLayer. cbn [withMap map].
  repeat case_match; unfold Map.removeSource; repeat case_match; done.
Qed.

Lemma disabled_key_is_absent iso levelCode w :
  consistent w →
  keyAbsent (cacheKeyOf iso levelCode)
            (map (toggleAdminLevel iso levelCode false w)).
Proof.
  intros (ks & Hd & _).
  apply (draws_key_absent (filter (λ k, k ≠ cacheKeyOf iso levelCode) ks)).
  - unfold toggleAdminLevel. by apply removeLayer_draws.
  - intros [Hne _]%list_elem_of_filter. done.
Qed.

(** X2. Switching a level off, in any reachable world: the key's two
    layers and its source are gone, the other keys stay drawn in the same
    order, the level leaves the active set, while the cached dataset and
    the registered listeners stay. *)
Theorem disabling_tears_down_draw_state_only t c es iso levelCode :
  let w := run es (initWorld t c) in
  let w' := toggleAdminLevel iso levelCode false w in
  let cacheKey := cacheKeyOf iso levelCode in
  (∃ ks, draws ks (map w) ∧ draws (filter (λ k, k ≠ cacheKey) ks) (map w')) ∧
  keyAbsent cacheKey (map w') ∧
  (levelCode ∉ activeLevels (state w')) ∧
  geoJsonCache (state w') = geoJsonCache (state w) ∧
  listeners (map w') = listeners (map w).
Proof.
  cbv zeta. set (w := run es (initWorld t c)).
  destruct (run_consistent es _ (initWorld_consistent t c)) as (ks & Hd & _).
  fold w in Hd. clearbody w.
  assert (Hd' : draws (filter (λ k, k ≠ cacheKeyOf iso levelCode) ks)
                      (map (toggleAdminLevel iso levelCode false w))).
  { unfold toggleAdminLevel. by apply removeLayer_draws. }
  split_and!.
  - by exists ks.
  - apply (draws_key_absent _ _ _ Hd').
    intros [Hne _]%list_elem_of_filter. done.
  - rewrite toggleAdminLevel_state. cbn [setActive activeLevels].
    unfold JsSet.delete. intros [Hne _]%list_elem_of_filter. done.
  - by rewrite toggleAdminLevel_state.
  - unfold toggleAdminLevel. by rewrite removeLayer_listeners.
Qed.

Lemma addLayer_listeners id ty src m :
  listeners (Map.addLayer id ty src m) = listeners m.
Proof. unfold Map.addLayer. by case_match. Qed.

Lemma addSourceAndLayers_fresh_listeners iso levelCode geojson w :
  Map.getSource (sourceIdOf (cacheKeyOf iso levelCode)) (map w) = None →
  listeners (map (addSourceAndLayers iso levelCode geojson w)) =
  (listeners (map w) ++
   [("click", layerIdFillOf (cacheKeyOf iso levelCode));
    ("mouseenter", layerIdFillOf (cacheKeyOf iso levelCode));
    ("mouseleave", layerIdFillOf (cacheKeyOf iso levelCode))])%list.
Proof.
  intros Hs. unfold addSourceAndLayers, Map.addSource. rewrite Hs.
  cbn [withMap map]. unfold Map.on. cbn [listeners].
  rewrite !addLayer_listeners. cbn [listeners]. by rewrite <- !app_assoc.
Qed.

(** X3. Switching a level whose dataset is cached off and on again, in any
    reachable world: no network request; the key ends with exactly one
    fill/line pair, on top of all other drawn keys (whose order is kept);
    and three more listeners are registered for the fill layer, none
    having been removed. *)
Theorem off_then_on_redraws_on_top t c es iso levelCode
    (Hcached : is_Some (geoJsonCache (state (run es (initWorld t c)))
                          !! cacheKeyOf iso levelCode)) :
  let w := run es (initWorld t c) in
  let w' := toggleAdminLevel iso levelCode true
              (toggleAdminLevel iso levelCode false w) in
  let cacheKey := cacheKeyOf iso levelCode in
  (∃ ks, draws ks (map w) ∧
         draws (filter (λ k, k ≠ cacheKey) ks ++ [cacheKey]) (map w')) ∧
  network w' = network w ∧
  inflight w' = inflight w ∧
  listeners (map w') =
    (listeners (map w) ++
     [("click", layerIdFillOf cacheKey); ("mouseenter", layerIdFillOf cacheKey);
      ("mouseleave", layerIdFillOf cacheKey)])%list.
Proof.
  cbv zeta. set (w := run es (initWorld t c)) in *.
  destruct (run_consistent es _ (initWorld_consistent t c)) as (ks & Hd & _).
  fold w in Hd. clearbody w. destruct Hcached as [g Hg].
  set (w1 := toggleAdminLevel iso levelCode false w).
  assert (Hd1 : draws (filter (λ k, k ≠ cacheKeyOf iso levelCode) ks) (map w1))
    by (by apply removeLayer_draws).
  assert (Hnot : cacheKeyOf iso levelCode ∉
                 filter (λ k, k ≠ cacheKeyOf iso levelCode) ks)
    by (intros [Hne _]%list_elem_of_filter; done).
  assert (Hs1 : Map.getSource (sourceIdOf (cacheKeyOf iso levelCode)) (map w1)
                = None) by apply (draws_key_absent _ _ _ Hd1 Hnot).
  assert (Hc1 : geoJsonCache (state w1) !! cacheKeyOf iso levelCode = Some g)
    by (subst w1; by rewrite toggleAdminLevel_state).
  assert (Hw' : toggleAdminLevel iso levelCode true w1 =
                addSourceAndLayers iso levelCode g
                  (withButtons (setButtonActive levelCode true)
                     (withState (setActive (JsSet.add levelCode)) w1))).
  { unfold toggleAdminLevel at 1, loadAndRenderLayer.
    cbn [withButtons withState map state geoJsonCache setActive].
    by rewrite Hs1, Hc1. }
  rewrite Hw'. split_and!.
  - exists ks. split; [done|].
    pose proof (addSourceAndLayers_draws _ iso levelCode g
      (withButtons (setButtonActive levelCode true)
         (withState (setActive (JsSet.add levelCode)) w1)) Hd1) as H.
    by rewrite decide_False in H.
  - by rewrite (proj1 (addSourceAndLayers_queue _ _ _ _)).
  - by rewrite (proj2 (addSourceAndLayers_queue _ _ _ _)).
  - rewrite addSourceAndLayers_fresh_listeners by done.
    cbn [withButtons withState map]. subst w1.
    unfold toggleAdminLevel. by rewrite removeLayer_listeners.
Qed.

Lemma off_then_on_redraws_on_top_witness :
  let w := run Demo.threeLevels (initWorld Sample.catalog Sample.texts) in
  layerId <$> layers (map (toggleAdminLevel "FRA" "ADM0" true
                             (toggleAdminLevel "FRA" "ADM0" false w))) =
  ["layer-fill-FRA_ADM1"; "layer-line-FRA_ADM1";
   "layer-fill-FRA_ADM2"; "layer-line-FRA_ADM2";
   "layer-fill-FRA_ADM0"; "layer-line-FRA_ADM0"] ∧
  network (toggleAdminLevel "FRA" "ADM0" true
             (toggleAdminLevel "FRA" "ADM0" false w))
  = network w.
Proof.
  assert (Hc : is_Some (geoJsonCache (state (run Demo.threeLevels
                 (initWorld Sample.catalog Sample.texts)))
                 !! cacheKeyOf "FRA" "ADM0")).
  { exists Sample.fra0. vm_compute. reflexivity. }
  split; [vm_compute; reflexivity|].
  exact (proj1 (proj2 (off_then_on_redraws_on_top Sample.catalog Sample.texts
                         Demo.threeLevels "FRA" "ADM0" Hc))).
Defined.

(** X4. Switching on a level that is already drawn, in any reachable world,
    touches neither the renderer nor the network nor the cache: only the
    active set and the button change. *)
Theorem enabling_a_drawn_level_changes_nothing t c es iso levelCode
    (Hdrawn : is_Some (Map.getSource (sourceIdOf (cacheKeyOf iso levelCode))
                         (map (run es (initWorld t c))))) :
  let w := run es (initWorld t c) in
  toggleAdminLevel iso levelCode true w =
  withButtons (setButtonActive levelCode true)
    (withState (setActive (JsSet.add levelCode)) w).
Proof.
  cbv zeta. set (w := run es (initWorld t c)) in *.
  destruct (run_consistent es _ (initWorld_consistent t c)) as (ks & Hd & _).
  fold w in Hd. clearbody w.
  unfold toggleAdminLevel. apply (loadAndRenderLayer_drawn ks); [done|].
  by apply (draws_source _ _ _ Hd).
Qed.

Lemma enabling_a_drawn_level_changes_nothing_witness :
  let w := run Demo.threeLevels (initWorld Sample.catalog Sample.texts) in
  toggleAdminLevel "FRA" "ADM1" true w =
  withButtons (setButtonActive "ADM1" true)
    (withState (setActive (JsSet.add "ADM1")) w).
Proof.
  assert (Hs : is_Some (Map.getSource (sourceIdOf (cacheKeyOf "FRA" "ADM1"))
                 (map (run Demo.threeLevels
                         (initWorld Sample.catalog Sample.texts))))).
  { exists Sample.fra1. vm_compute. reflexivity. }
  exact (enabling_a_drawn_level_changes_nothing Sample.catalog Sample.texts
           Demo.threeLevels "FRA" "ADM1" Hs).
Defined.

(** ** What is never undone *)

Lemma addLayer_grows id ty src m :
  layerId <$> layers m `prefix_of` layerId <$> layers (Map.addLayer id ty src m).
Proof.
  unfold Map.addLayer. case_match; [done|].
  cbn [layers]. rewrite fmap_app. by apply prefix_app_r.
Qed.

Lemma addSourceAndLayers_grows iso levelCode geojson w :
  listeners (map w) `prefix_of`
    listeners (map (addSourceAndLayers iso levelCode geojson w)) ∧
  layerId <$> layers (map w) `prefix_of`
    layerId <$> layers (map (addSourceAndLayers iso levelCode geojson w)) ∧
  dom (sources (map w)) ⊆
    dom (sources (map (addSourceAndLayers iso levelCode geojson w))).
Proof.
  unfold addSourceAndLayers, Map.addSource.
  destruct (Map.getSource _ _) eqn:Hs; [done|].
  cbn [withMap map]. unfold Map.on. cbn [listeners layers sources].
  split_and!.
  - rewrite !addLayer_listeners. cbn [listeners].
    by repeat apply prefix_app_r.
  - etrans; [|apply addLayer_grows]. etrans; [|apply addLayer_grows]. done.
  - rewrite !addLayer_sources. cbn [sources]. apply dom_insert_subseteq.
Qed.

Lemma setVisible_ids id m :
  layerId <$> layers (Map.setVisible id m) = layerId <$> layers m.
Proof.
  unfold Map.setVisible. cbn [layers]. rewrite <- list_fmap_compose.
  apply list_fmap_ext. intros i l _. simpl. by case_decide.
Qed.

Lemma ensureVisible_same id m :
  listeners (ensureVisible id m) = listeners m ∧
  layerId <$> layers (ensureVisible id m) = layerId <$> layers m ∧
  sources (ensureVisible id m) = sources m.
Proof.
  unfold ensureVisible. destruct (Map.getLayer id m); [|done].
  split_and!; [done|apply setVisible_ids|done].
Qed.

Lemma loadAndRenderLayer_grows iso levelCode w :
  listeners (map w) `prefix_of`
    listeners (map (loadAndRenderLayer iso levelCode w)) ∧
  layerId <$> layers (map w) `prefix_of`
    layerId <$> layers (map (loadAndRenderLayer iso levelCode w)) ∧
  dom (sources (map w)) ⊆
    dom (sources (map (loadAndRenderLayer iso levelCode w))).
Proof.
  unfold loadAndRenderLayer. destruct (Map.getSource _ _).
  - cbn [withMap map].
    destruct (ensureVisible_same (layerIdFillOf (cacheKeyOf iso levelCode))
                (map w)) as (H1 & H2 & H3).
    destruct (ensureVisible_same (layerIdLineOf (cacheKeyOf iso levelCode))
                (ensureVisible (layerIdFillOf (cacheKeyOf iso levelCode))
                   (map w))) as (H4 & H5 & H6).
    by rewrite H4, H5, H6, H1, H2, H3.
  - repeat case_match; try done. apply addSourceAndLayers_grows.
Qed.

Lemma selectCountry_grows iso w :
  listeners (map w) `prefix_of` listeners (map (selectCountry iso w)) ∧
  layerId <$> layers (map w) `prefix_of`
    layerId <$> layers (map (selectCountry iso w)) ∧
  dom (sources (map w)) ⊆ dom (sources (map (selectCountry iso w))).
Proof.
  unfold selectCountry.
  cbn [withState state setActive setSelected terminology].
  destruct (terminology (state w) !! iso) as [cd|]; [|done].
  destruct (levels cd) as [|[level0 ?] ?].
  - by rewrite renderAdminButtons_map.
  - unfold toggleAdminLevel.
    match goal with
    | |- context [loadAndRenderLayer ?i ?l ?w0] =>
        pose proof (loadAndRenderLayer_grows i l w0) as H
    end.
    cbn [withButtons withState map] in H.
    by rewrite renderAdminButtons_map in H.
Qed.

Lemma selectSearchResult_grows item w :
  listeners (map w) `prefix_of` listeners (map (selectSearchResult item w)) ∧
  layerId <$> layers (map w) `prefix_of`
    layerId <$> layers (map (selectSearchResult item w)) ∧
  dom (sources (map w)) ⊆ dom (sources (map (selectSearchResult item w))).
Proof.
  unfold selectSearchResult, toggleAdminLevel.
  match goal with
  | |- context [loadAndRenderLayer ?i ?l ?w0] =>
      pose proof (loadAndRenderLayer_grows i l w0) as H
  end.
  cbn [withButtons withState withMap map Map.flyTo listeners layers sources] in H.
  destruct H as (H1 & H2 & H3).
  case_decide.
  - done.
  - destruct (selectCountry_grows (iso item) w) as (G1 & G2 & G3).
    split_and!; etrans; done.
Qed.

Lemma settle_grows i outcome w :
  listeners (map w) `prefix_of`
    listeners (map (step (FetchSettled i outcome) w)) ∧
  layerId <$> layers (map w) `prefix_of`
    layerId <$> layers (map (step (FetchSettled i outcome) w)) ∧
  dom (sources (map w)) ⊆
    dom (sources (map (step (FetchSettled i outcome) w))).
Proof.
  unfold step. destruct (inflight w !! i) as [r|]; [|done].
  unfold loadAndRenderLayer_resume. destruct outcome; [|done].
  match goal with
  | |- context [addSourceAndLayers ?i ?l ?g ?w0] =>
      apply (addSourceAndLayers_grows i l g w0)
  end.
Qed.

Lemma step_listeners e w :
  listeners (map w) `prefix_of` listeners (map (step e w)).
Proof.
  destruct e as [iso|k|item|i outcome].
  - apply selectCountry_grows.
  - unfold step, adminButtonClick. destruct (adminButtons w !! k); [|done].
    unfold toggleAdminLevel. case_match.
    + match goal with
      | |- context [loadAndRenderLayer ?i ?l ?w0] =>
          apply (loadAndRenderLayer_grows i l w0)
      end.
    + by rewrite removeLayer_listeners.
  - apply selectSearchResult_grows.
  - apply settle_grows.
Qed.

(** X5. No handler ever unregisters a listener: along any sequence of
    events the list of [map.on] registrations only grows at its end. *)
Theorem listeners_are_never_removed es w :
  listeners (map w) `prefix_of` listeners (map (run es w)).
Proof.
  induction es as [|e es IH] using rev_ind; [done|].
  rewrite run_snoc. etrans; [exact IH|apply step_listeners].
Qed.

(** X6. Selecting a country, choosing a search result and a fetch that
    settles never remove anything from the renderer: the layers drawn
    before stay, in place, below whatever is added, and no source goes
    away.  (Only switching a level off removes layers.) *)
Theorem only_disabling_removes_layers w :
  (∀ iso,
     layerId <$> layers (map w) `prefix_of`
       layerId <$> layers (map (step (DropdownChange iso) w)) ∧
     dom (sources (map w)) ⊆ dom (sources (map (step (DropdownChange iso) w)))) ∧
  (∀ item,
     layerId <$> layers (map w) `prefix_of`
       layerId <$> layers (map (step (SearchResultClick item) w)) ∧
     dom (sources (map w)) ⊆
       dom (sources (map (step (SearchResultClick item) w)))) ∧
  (∀ i outcome,
     layerId <$> layers (map w) `prefix_of`
       layerId <$> layers (map (step (FetchSettled i outcome) w)) ∧
     dom (sources (map w)) ⊆
       dom (sources (map (step (FetchSettled i outcome) w)))).
Proof.
  split_and!.
  - intros iso. apply selectCountry_grows.
  - intros item. apply selectSearchResult_grows.
  - intros i outcome. apply settle_grows.
Qed.

(** X7. The cache has no eviction: along any sequence of events every key
    that is cached stays cached. *)
Theorem cache_is_never_evicted es w :
  dom (geoJsonCache (state w)) ⊆ dom (geoJsonCache (state (run es w))).
Proof.
  induction es as [|e es IH] using rev_ind; [done|].
  rewrite run_snoc. etrans; [exact IH|]. rewrite step_cache.
  repeat case_match; try done. apply dom_insert_subseteq.
Qed.

(** ** Where fetches and cache entries come from *)

Lemma discipline_ext t w w' :
  state w' = state w ∨
    (terminology (state w') = terminology (state w) ∧
     geoJsonCache (state w') = geoJsonCache (state w)) →
  network w' = network w → inflight w' = inflight w →
  fetchDiscipline t w → fetchDiscipline t w'.
Proof.
  intros Hst Hn Hi (Ht & Hnet & Hfl & Hc). unfold fetchDiscipline.
  rewrite Hn, Hi. destruct Hst as [->|[-> ->]]; done.
Qed.

Lemma loadAndRenderLayer_discipline t iso levelCode w :
  fetchDiscipline t w → fetchDiscipline t (loadAndRenderLayer iso levelCode w).
Proof.
  intros Hw. unfold loadAndRenderLayer.
  destruct (Map.getSource _ _); [revert Hw; by apply discipline_ext; auto|].
  destruct (geoJsonCache _ !! _).
  { revert Hw. apply discipline_ext.
    - left. apply addSourceAndLayers_state.
    - apply addSourceAndLayers_queue.
    - apply addSourceAndLayers_queue. }
  destruct (terminology (state w) !! iso) as [cd|] eqn:Hcd;
    [|revert Hw; by apply discipline_ext; auto].
  destruct (levelLookup levelCode (levels cd)) as [info|] eqn:Hl;
    [|revert Hw; by apply discipline_ext; auto].
  destruct Hw as (Ht & Hnet & Hfl & Hc). subst t.
  assert (Hcat : catalogued (terminology (state w)) iso levelCode
                   (config.dataBaseUrl +:+ "/" +:+ file info))
    by (by exists cd, info).
  split_and!; [done| | |done]; cbn [startFetch network inflight reqPath];
    apply Forall_app; (split; [done|]); constructor; eauto.
Qed.

Lemma toggleAdminLevel_discipline t iso levelCode shouldEnable w :
  fetchDiscipline t w →
  fetchDiscipline t (toggleAdminLevel iso levelCode shouldEnable w).
Proof.
  intros Hw. unfold toggleAdminLevel. destruct shouldEnable.
  - apply loadAndRenderLayer_discipline. revert Hw.
    by apply discipline_ext; auto.
  - revert Hw. by apply discipline_ext; auto.
Qed.

Lemma selectCountry_discipline t iso w :
  fetchDiscipline t w → fetchDiscipline t (selectCountry iso w).
Proof.
  intros Hw. unfold selectCountry.
  cbn [withState state setActive setSelected terminology].
  destruct (terminology (state w) !! iso) as [cd|];
    [|revert Hw; by apply discipline_ext; auto].
  assert (Hb : fetchDiscipline t (renderAdminButtons iso
                 (withMap (Map.flyTo (defaultView cd))
                    (withState (setActive JsSet.clear)
                       (withState (setSelected iso) w))))).
  { revert Hw. apply discipline_ext.
    - right. by rewrite renderAdminButtons_state.
    - unfold renderAdminButtons. by case_match.
    - unfold renderAdminButtons. by case_match. }
  destruct (levels cd) as [|[level0 ?] ?]; [done|].
  by apply toggleAdminLevel_discipline.
Qed.

Lemma step_discipline t e w : fetchDiscipline t w → fetchDiscipline t (step e w).
Proof.
  intros Hw. destruct e as [iso|k|item|i outcome]; unfold step.
  - by apply selectCountry_discipline.
  - unfold adminButtonClick. destruct (adminButtons w !! k); [|done].
    by apply toggleAdminLevel_discipline.
  - unfold selectSearchResult. apply toggleAdminLevel_discipline.
    case_decide.
    + revert Hw. by apply discipline_ext; auto.
    + apply (selectCountry_discipline t (iso item)) in Hw. revert Hw.
      by apply discipline_ext; auto.
  - destruct (inflight w !! i) as [r|] eqn:Hr; [|done].
    destruct Hw as (Ht & Hnet & Hfl & Hc).
    assert (Hcat : catalogued t (reqIso r) (reqLevel r) (reqPath r)).
    { rewrite Forall_forall in Hfl. apply Hfl.
      by apply list_elem_of_lookup_2 with i. }
    unfold loadAndRenderLayer_resume. destruct outcome as [data|].
    + split_and!.
      * by rewrite addSourceAndLayers_state.
      * by rewrite (proj1 (addSourceAndLayers_queue _ _ _ _)).
      * rewrite (proj2 (addSourceAndLayers_queue _ _ _ _)).
        by apply Forall_delete.
      * rewrite addSourceAndLayers_state.
        cbn [withState state setCache geoJsonCache].
        apply map_Forall_insert_2; [|done]. eauto.
    + split_and!; [done|done| |done]. by apply Forall_delete.
Qed.

Lemma run_discipline t es w : fetchDiscipline t w → fetchDiscipline t (run es w).
Proof.
  intros Hw. induction es as [|e es IH] using rev_ind; [done|].
  rewrite run_snoc. by apply step_discipline.
Qed.

Lemma initWorld_discipline t c : fetchDiscipline t (initWorld t c).
Proof.
  split_and!; [done|constructor|constructor|apply map_Forall_empty].
Qed.

Lemma step_content e w : content (state (step e w)) = content (state w).
Proof.
  destruct e as [iso|k|item|i outcome]; unfold step.
  - pose proof (selectCountry_state iso w) as Hs. cbv zeta in Hs. rewrite Hs.
    by repeat case_match.
  - unfold adminButtonClick. destruct (adminButtons w !! k); [|done].
    by rewrite toggleAdminLevel_state.
  - unfold selectSearchResult. rewrite toggleAdminLevel_state.
    cbn [withMap state setActive content]. case_decide; [done|].
    pose proof (selectCountry_state (iso item) w) as Hs. cbv zeta in Hs.
    rewrite Hs. by repeat case_match.
  - destruct (inflight w !! i); [|done]. rewrite resume_state.
    by destruct outcome.
Qed.

Lemma run_content es w : content (state (run es w)) = content (state w).
Proof.
  induction es as [|e es IH] using rev_ind; [done|].
  by rewrite run_snoc, step_content.
Qed.

(** X8. Whatever the user does, the only URLs ever handed to [fetch] are
    [dataBaseUrl + "/" + file] for the [file] of a level that is in the
    terminology catalog; the handlers never alter the catalog or the
    content table. *)
Theorem only_catalogued_files_are_fetched t c es :
  let w := run es (initWorld t c) in
  terminology (state w) = t ∧
  content (state w) = c ∧
  Forall (λ url, ∃ iso levelCode, catalogued t iso levelCode url) (network w).
Proof.
  cbv zeta.
  destruct (run_discipline t es _ (initWorld_discipline t c)) as (Ht & Hn & _).
  split; [done|]. split; [|done]. by rewrite run_content.
Qed.

(** X9. Every key of the dataset cache is ["ISO_LEVEL"] for a level the
    catalog lists. *)
Theorem cache_keys_are_catalogued t c es k
    (Hcached : is_Some (geoJsonCache (state (run es (initWorld t c))) !! k)) :
  ∃ iso levelCode url,
    k = iso +:+ "_" +:+ levelCode ∧ catalogued t iso levelCode url.
Proof.
  destruct (run_discipline t es _ (initWorld_discipline t c))
    as (_ & _ & _ & Hc).
  destruct Hcached as [g Hg]. exact (Hc k g Hg).
Qed.

Lemma cache_keys_are_catalogued_witness :
  ∃ iso levelCode url,
    "FRA_ADM0" = iso +:+ "_" +:+ levelCode ∧
    catalogued Sample.catalog iso levelCode url.
Proof.
  apply (cache_keys_are_catalogued Sample.catalog Sample.texts
           [DropdownChange "FRA"; FetchSettled 0 (Some Sample.fra0)]).
  exists Sample.fra0. vm_compute. reflexivity.
Defined.

(** ** Clicks *)

Lemma elem_of_insertBy {A} (cmp : A → A → Z) x y l :
  y ∈ Js.insertBy cmp x l ↔ y = x ∨ y ∈ l.
Proof.
  induction l as [|z l IH]; simpl.
  - rewrite list_elem_of_singleton, elem_of_nil. tauto.
  - case_match; rewrite !elem_of_cons, ?IH; tauto.
Qed.

Lemma elem_of_sort {A} (cmp : A → A → Z) y l : y ∈ Js.sort cmp l ↔ y ∈ l.
Proof.
  induction l as [|x l IH]; [done|].
  unfold Js.sort in *. simpl. by rewrite elem_of_insertBy, IH, elem_of_cons.
Qed.

Lemma topFeature_elem features top :
  topFeature features = Some top → top ∈ features.
Proof.
  unfold topFeature. destruct features as [|f fs]; [done|].
  intros Hh. apply (elem_of_sort compareLevels).
  destruct (Js.sort compareLevels (f :: fs)); [done|].
  injection Hh as ->. by left.
Qed.

(** X10. A popup opened by a click always shows a feature that lies under
    the click on the fill layer of a level that is in the active set, with
    the country the handler was registered for; with an empty active set
    every click is a no-op.  This holds whatever the features' level
    codes look like. *)
Theorem popup_feature_comes_from_an_active_layer e iso levelCode w :
  (activeLevels (state w) = [] → handleFeatureClick e iso levelCode w = w) ∧
  (handleFeatureClick e iso levelCode w = w ∨
   ∃ top lvl,
     (layerIdFillOf (cacheKeyOf iso lvl), top) ∈ point e ∧
     lvl ∈ activeLevels (state w) ∧
     handleFeatureClick e iso levelCode w = showPopup top (lngLat e) w).
Proof.
  unfold handleFeatureClick. split.
  - intros Hnone. unfold activeFillLayers, Map.queryRenderedFeatures.
    rewrite Hnone. cbn [fmap list_fmap].
    induction (point e) as [|p ps IH]; [done|].
    rewrite filter_cons_False; [done|].
    intros Hp. by apply elem_of_nil in Hp.
  - destruct (topFeature _) as [top|] eqn:Htop; [|by left]. right.
    apply topFeature_elem in Htop.
    unfold Map.queryRenderedFeatures in Htop.
    apply list_elem_of_fmap in Htop as ([lid f] & -> & Hin).
    apply list_elem_of_filter in Hin as [Hid Hin]. simpl in Hid.
    unfold activeFillLayers in Hid.
    apply list_elem_of_fmap in Hid as (lvl & -> & Hlvl).
    exists f, lvl. done.
Qed.

Lemma popup_feature_comes_from_an_active_layer_witness :
  handleFeatureClick Sample.clickParis "FRA" "ADM0"
    (selectCountry "XKX" Sample.franceAllLevels)
  = selectCountry "XKX" Sample.franceAllLevels.
Proof.
  apply (popup_feature_comes_from_an_active_layer Sample.clickParis
           "FRA" "ADM0" (selectCountry "XKX" Sample.franceAllLevels)).
  vm_compute. reflexivity.
Defined.

(** ** Search navigation inside the selected country, and unknown levels *)

(** X11. Choosing a search record of the country that is already selected
    does not go through [selectCountry]: the selection stays, every level
    that was active stays active, the record's level is added, and the
    camera flies to the record's point at zoom 7. *)
Theorem search_in_selected_country_keeps_levels item w
    (Hsame : selectedCountryISO (state w) = Some (iso item)) :
  let w' := selectSearchResult item w in
  selectedCountryISO (state w') = Some (iso item) ∧
  activeLevels (state w') = JsSet.add (level item) (activeLevels (state w)) ∧
  (∀ l, l ∈ activeLevels (state w) → l ∈ activeLevels (state w')) ∧
  level item ∈ activeLevels (state w') ∧
  camera (map w') = mkCamera (itemCenter item) 7 ∧
  adminButtons w' = setButtonActive (level item) true (adminButtons w).
Proof.
  cbv zeta.
  assert (Hst : state (selectSearchResult item w) =
                setActive (JsSet.add (level item)) (state w)).
  { unfold selectSearchResult. rewrite decide_True by done.
    by rewrite toggleAdminLevel_state. }
  rewrite Hst. cbn [setActive selectedCountryISO activeLevels].
  split_and!; try done.
  - intros l Hl. apply elem_of_JsSet_add. by right.
  - apply elem_of_JsSet_add. by left.
  - unfold selectSearchResult. by rewrite toggleAdminLevel_on_camera.
  - unfold selectSearchResult. rewrite decide_True by done.
    unfold toggleAdminLevel, loadAndRenderLayer.
    repeat case_match; try done.
    unfold addSourceAndLayers. by case_match.
Qed.

Lemma search_in_selected_country_keeps_levels_witness :
  activeLevels (state (selectSearchResult
    (mkSearchItem "Paris" ["Paris"; "Ile-de-France"; "France"] "FRA" "ADM2" (2, 48))
    Sample.franceShown)) = ["ADM0"; "ADM2"].
Proof.
  assert (Hs : selectedCountryISO (state Sample.franceShown) = Some "FRA")
    by (vm_compute; reflexivity).
  destruct (search_in_selected_country_keeps_levels
    (mkSearchItem "Paris" ["Paris"; "Ile-de-France"; "France"] "FRA" "ADM2" (2, 48))
    Sample.franceShown Hs) as (_ & Ha & _).
  rewrite Ha. vm_compute. reflexivity.
Defined.



(** ** The search box *)

(** X13. A query of fewer than two characters is not searched: the result
    list is emptied and hidden whatever the search engine would answer. *)
Theorem short_queries_are_not_searched search1 search2 query box
    (Hshort : (String.length query < 2)%nat) :
  handleSearch search1 query box = handleSearch search2 query box ∧
  resultsHidden (handleSearch search1 query box) = true ∧
  resultItems (handleSearch search1 query box) = [].
Proof.
  unfold handleSearch.
  by rewrite (proj2 (Nat.ltb_lt _ _) Hshort).
Qed.

Lemma short_queries_are_not_searched_witness :
  handleSearch Demo.search "P" Demo.box = mkSearchBox true [] EmptyString.
Proof.
  destruct (short_queries_are_not_searched Demo.search (λ _, []) "P" Demo.box)
    as (-> & _ & _).
  - vm_compute. lia.
  - vm_compute. reflexivity.
Defined.

Lemma handleSearch_lookup search query box k :
  (2 ≤ String.length query)%nat → (k < 10)%nat →
  resultItems (handleSearch search query box) !! k =
  (λ item, (arrayJoin ", " (hierarchy item), item)) <$> search query !! k.
Proof.
  intros Hlong Hk. unfold handleSearch.
  rewrite (proj2 (Nat.ltb_ge _ _) Hlong).
  destruct (search query) as [|r rs] eqn:Hr; [done|].
  cbn [resultItems]. by rewrite list_lookup_fmap, lookup_take_lt.
Qed.

(** X14. For a query of two characters or more the result list shows the
    ten best records at most, in rank order, each labelled with its
    ancestry chain joined by ", "; the list is hidden exactly when nothing
    matches; the text typed is left alone. *)
Theorem search_shows_the_ten_best_matches search query box
    (Hlong : (2 ≤ String.length query)%nat) :
  let box' := handleSearch search query box in
  (resultsHidden box' = true ↔ search query = []) ∧
  length (resultItems box') = (length (search query) `min` 10)%nat ∧
  (∀ k, (k < 10)%nat →
        resultItems box' !! k =
        (λ item, (arrayJoin ", " (hierarchy item), item)) <$> search query !! k) ∧
  (∀ k, (10 ≤ k)%nat → resultItems box' !! k = None) ∧
  searchInputValue box' = searchInputValue box.
Proof.
  cbv zeta. unfold handleSearch.
  rewrite (proj2 (Nat.ltb_ge _ _) Hlong).
  destruct (search query) as [|r rs] eqn:Hr.
  - split_and!; try done.
  - cbn [resultsHidden resultItems searchInputValue]. split_and!.
    + split; intros; discriminate.
    + rewrite length_fmap, length_take. lia.
    + intros k Hk. by rewrite list_lookup_fmap, lookup_take_lt.
    + intros k Hk. rewrite list_lookup_fmap.
      rewrite (proj2 (lookup_ge_None _ _)); [done|]. rewrite length_take. lia.
    + done.
Qed.

Lemma search_shows_the_ten_best_matches_witness :
  resultItems (handleSearch Demo.search "Co" Demo.box) =
    [("Cook County, Illinois, United States", Sample.cookCounty)] ∧
  resultsHidden (handleSearch Demo.search "Co" Demo.box) = false.
Proof.
  destruct (search_shows_the_ten_best_matches Demo.search "Co" Demo.box)
    as (_ & _ & _ & _ & _).
  - vm_compute. lia.
  - vm_compute. split; reflexivity.
Defined.

(** X15. Clicking the [k]-th entry of the list shown for a query runs the
    navigation for the [k]-th best record of that query, hides the list
    and writes the record's name into the search input. *)
Theorem clicking_a_result_navigates_to_that_record search query box w k item
    (Hlong : (2 ≤ String.length query)%nat)
    (Hk : (k < 10)%nat)
    (Hitem : search query !! k = Some item) :
  let shown := handleSearch search query box in
  searchResultItemClick k (w, shown) =
  (selectSearchResult item w,
   mkSearchBox true (resultItems shown) (name item)).
Proof.
  cbv zeta. unfold searchResultItemClick. cbn [fst snd].
  by rewrite (handleSearch_lookup search query box k Hlong Hk), Hitem.
Qed.

Lemma clicking_a_result_navigates_to_that_record_witness :
  searchResultItemClick 0
    (Sample.franceShown, handleSearch Demo.search "Co" Demo.box) =
  (selectSearchResult Sample.cookCounty Sample.franceShown,
   mkSearchBox true (resultItems (handleSearch Demo.search "Co" Demo.box))
               "Cook County").
Proof.
  apply (clicking_a_result_navigates_to_that_record Demo.search "Co" Demo.box
           Sample.franceShown 0 Sample.cookCounty).
  - vm_compute. lia.
  - lia.
  - vm_compute. reflexivity.
Defined.

(** ** Start-up *)

(** X16. [init] wires the page only when all four data files arrive and
    parse: then the four fields are set, the search index is handed to
    Fuse, the dropdown gets one option per country in file order, the
    listeners are set up and nothing is alerted.  In every other case
    exactly one alert is shown, and neither the dropdown nor Fuse nor the
    listeners are touched. *)
Theorem init_wires_the_page_only_when_all_files_load
    termRes countriesRes contentRes searchRes p
    (Hfresh : Startup.listening p = false) :
  let p' := Startup.init termRes countriesRes contentRes searchRes p in
  (Startup.listening p' = true ↔
   ∃ t cs c index,
     termRes = Startup.Body (Some t) ∧ countriesRes = Startup.Body (Some cs) ∧
     contentRes = Startup.Body (Some c) ∧ searchRes = Startup.Body (Some index)) ∧
  (∀ t cs c index,
     termRes = Startup.Body (Some t) → countriesRes = Startup.Body (Some cs) →
     contentRes = Startup.Body (Some c) → searchRes = Startup.Body (Some index) →
     p' = Startup.mkPage (Some t) (Some cs) (Some c) (Some index) (Some index)
            (Startup.dropdownOptions p ++
             ((λ x, (Startup.countryIso x, Startup.countryName x)) <$> cs))
            true (Startup.alerts p)) ∧
  (Startup.listening p' = false →
   Startup.alerts p' =
     (Startup.alerts p ++ ["Error loading application data. Check console."])%list ∧
   Startup.dropdownOptions p' = Startup.dropdownOptions p ∧
   Startup.fuse p' = Startup.fuse p).
Proof.
  cbv zeta. split_and!.
  - split.
    + destruct termRes as [|[t|]], countriesRes as [|[cs|]],
        contentRes as [|[c|]], searchRes as [|[index|]];
        simpl; rewrite ?Hfresh; try discriminate.
      intros _. by exists t, cs, c, index.
    + intros (t & cs & c & index & -> & -> & -> & ->). done.
  - intros t cs c index -> -> -> ->. done.
  - destruct termRes as [|[t|]], countriesRes as [|[cs|]],
      contentRes as [|[c|]], searchRes as [|[index|]];
      simpl; try discriminate; done.
Qed.

Lemma init_wires_the_page_only_when_all_files_load_witness :
  Startup.dropdownOptions
    (Startup.init (Startup.Body (Some Sample.catalog))
                  (Startup.Body (Some Demo.countryList))
                  (Startup.Body (Some Sample.texts))
                  (Startup.Body (Some Demo.index)) Startup.blank)
  = [("FRA", "France"); ("USA", "United States")] ∧
  Startup.alerts
    (Startup.init (Startup.Body (Some Sample.catalog))
                  (Startup.Body (Some Demo.countryList))
                  Startup.Rejected
                  (Startup.Body (Some Demo.index)) Startup.blank)
  = ["Error loading application data. Check console."].
Proof.
  split.
  - destruct (init_wires_the_page_only_when_all_files_load
                (Startup.Body (Some Sample.catalog))
                (Startup.Body (Some Demo.countryList))
                (Startup.Body (Some Sample.texts))
                (Startup.Body (Some Demo.index)) Startup.blank eq_refl)
      as (_ & Hok & _).
    by rewrite (Hok _ _ _ _ eq_refl eq_refl eq_refl eq_refl).
  - destruct (init_wires_the_page_only_when_all_files_load
                (Startup.Body (Some Sample.catalog))
                (Startup.Body (Some Demo.countryList))
                Startup.Rejected
                (Startup.Body (Some Demo.index)) Startup.blank eq_refl)
      as (_ & _ & Hbad).
    by destruct (Hbad eq_refl) as (-> & _ & _).
Defined.

(** X17. How far a failed [init] gets: when one of the four requests is
    rejected nothing is assigned at all, even of the files that did arrive;
    when all four arrive, each file is assigned as soon as it has parsed, so
    the files before the first unparsable one stay in [state]. *)
Theorem failed_init_keeps_the_files_parsed_so_far p :
  (∀ termRes countriesRes contentRes searchRes,
     termRes = Startup.Rejected ∨ countriesRes = Startup.Rejected ∨
     contentRes = Startup.Rejected ∨ searchRes = Startup.Rejected →
     Startup.init termRes countriesRes contentRes searchRes p = Startup.failed p) ∧
  (∀ t countriesJson contentJson searchJson,
     Startup.terminology
       (Startup.init (Startup.Body (Some t)) (Startup.Body countriesJson)
                     (Startup.Body contentJson) (Startup.Body searchJson) p)
     = Some t) ∧
  (∀ t cs searchJson,
     Startup.init (Startup.Body (Some t)) (Startup.Body (Some cs))
                  (Startup.Body None) (Startup.Body searchJson) p
     = Startup.failed
         (Startup.mkPage (Some t) (Some cs) (Startup.content p)
            (Startup.searchIndex p) (Startup.fuse p)
            (Startup.dropdownOptions p) (Startup.listening p)
            (Startup.alerts p))).
Proof.
  split_and!.
  - intros termRes countriesRes contentRes searchRes Hrej.
    destruct termRes, countriesRes, contentRes, searchRes; try done;
      destruct Hrej as [?|[?|[?|?]]]; discriminate.
  - intros t [cs|] [c|] [index|]; done.
  - done.
Qed.

Lemma failed_init_keeps_the_files_parsed_so_far_witness :
  Startup.init (Startup.Body (Some Sample.catalog)) Startup.Rejected
               (Startup.Body (Some Sample.texts))
               (Startup.Body (Some Demo.index)) Startup.blank
  = Startup.failed Startup.blank.
Proof.
  apply (proj1 (failed_init_keeps_the_files_parsed_so_far Startup.blank)).
  right. left. reflexivity.
Defined.

(** ** Level numbers *)






(** ** Level buttons *)

Lemma loadAndRenderLayer_buttons iso levelCode w :
  adminButtons (loadAndRenderLayer iso levelCode w) = adminButtons w.
Proof.
  unfold loadAndRenderLayer, addSourceAndLayers. by repeat case_match.
Qed.

(** X19. A click on a level button flips that level in the active set and
    leaves every other level as it was: an active level is switched off,
    an inactive one switched on. *)
Theorem button_click_flips_its_level k btn w
    (Hbtn : adminButtons w !! k = Some btn) :
  ∀ l, l ∈ activeLevels (state (adminButtonClick k w)) ↔
       if decide (l = btnLevel btn)
       then l ∉ activeLevels (state w)
       else l ∈ activeLevels (state w).
Proof.
  intros l. unfold adminButtonClick. rewrite Hbtn, toggleAdminLevel_state.
  unfold JsSet.has. case_bool_decide as Hact;
    cbn [negb setActive activeLevels].
  - unfold JsSet.delete. rewrite list_elem_of_filter.
    case_decide as Hl; [subst l|]; tauto.
  - rewrite elem_of_JsSet_add. case_decide as Hl; [subst l|]; tauto.
Qed.

Lemma button_click_flips_its_level_witness :
  activeLevels (state (adminButtonClick 0 Sample.franceAllLevels))
    = ["ADM1"; "ADM2"] ∧
  ("ADM0" ∈ activeLevels (state (adminButtonClick 0 Sample.franceAllLevels)) ↔
   "ADM0" ∉ activeLevels (state Sample.franceAllLevels)).
Proof.
  split; [vm_compute; reflexivity|].
  assert (Hb : adminButtons Sample.franceAllLevels !! 0%nat =
               Some (mkButton "FRA" "ADM0" "Country" true))
    by (vm_compute; reflexivity).
  exact (button_click_flips_its_level 0 _ Sample.franceAllLevels Hb "ADM0").
Defined.

(** X20. After [selectCountry] for a catalogued country the button bar
    holds one button per level of the entry, in the entry's order, each
    labelled with the level's term and bound to that country; the first one
    is highlighted and no other. *)
Theorem selectCountry_rebuilds_the_buttons iso countryData w
    (Hentry : terminology (state w) !! iso = Some countryData) :
  adminButtons (selectCountry iso w) =
  match levels countryData with
  | [] => []
  | (level0, info0) :: rest =>
      mkButton iso level0 (term info0) true ::
      ((λ e, mkButton iso e.1 (term e.2) false) <$> rest)
  end.
Proof.
  unfold selectCountry.
  cbn [withState state setActive setSelected terminology]. rewrite Hentry.
  unfold renderAdminButtons.
  cbn [withMap withState state setActive setSelected terminology].
  rewrite Hentry.
  destruct (levels countryData) as [|[level0 info0] rest]; [done|].
  unfold toggleAdminLevel. rewrite loadAndRenderLayer_buttons.
  cbn [withButtons withState adminButtons fmap list_fmap setButtonActive
       btnLevel fst snd].
  by rewrite decide_True.
Qed.

Lemma selectCountry_rebuilds_the_buttons_witness :
  adminButtons (selectCountry "USA" Sample.franceShown) =
  [mkButton "USA" "ADM0" "Country" true; mkButton "USA" "ADM1" "State" false;
   mkButton "USA" "ADM2" EmptyString false].
Proof.
  assert (H : terminology (state Sample.franceShown) !! "USA" = Some Sample.usa)
    by (vm_compute; reflexivity).
  exact (selectCountry_rebuilds_the_buttons "USA" Sample.usa
           Sample.franceShown H).
Defined.

(** ** Switching off twice *)

Lemma removeLayer_absent iso levelCode w :
  keyAbsent (cacheKeyOf iso levelCode) (map w) →
  removeLayer iso levelCode w = w.
Proof.
  intros (Hs & Hf & Hl). unfold removeLayer. rewrite Hf, Hl, Hs.
  by destruct w.
Qed.

Lemma setButtonActive_twice levelCode b bs :
  setButtonActive levelCode b (setButtonActive levelCode b bs) =
  setButtonActive levelCode b bs.
Proof.
  induction bs as [|x bs IH]; [done|]. simpl.
  case_decide as Hx; simpl.
  - by rewrite decide_True.
  - by rewrite decide_False, IH.
Qed.

Lemma JsSet_delete_twice x s : JsSet.delete x (JsSet.delete x s) = JsSet.delete x s.
Proof.
  unfold JsSet.delete. apply filter_all, Forall_forall.
  by intros y [? _]%list_elem_of_filter.
Qed.

(** X21. Switching a level off is idempotent in every reachable world:
    doing it a second time changes nothing at all. *)
Theorem disabling_twice_is_disabling_once t c es iso levelCode :
  let w := run es (initWorld t c) in
  toggleAdminLevel iso levelCode false (toggleAdminLevel iso levelCode false w)
  = toggleAdminLevel iso levelCode false w.
Proof.
  cbv zeta.
  pose proof (disabled_key_is_absent iso levelCode _
                (run_consistent es _ (initWorld_consistent t c))) as Habs.
  set (w := run es (initWorld t c)) in *. clearbody w.
  set (w1 := toggleAdminLevel iso levelCode false w) in *.
  unfold toggleAdminLevel at 1. rewrite removeLayer_absent by done.
  assert (Hst : state w1 = setActive (JsSet.delete levelCode) (state w))
    by apply toggleAdminLevel_state.
  assert (Hb : adminButtons w1 = setButtonActive levelCode false (adminButtons w))
    by done.
  clearbody w1. destruct w1 as [s1 m1 b1 i1 n1 c1].
  cbn [state adminButtons] in Hst, Hb. subst s1 b1.
  unfold withButtons, withState.
  cbn [state map adminButtons inflight network console].
  rewrite setButtonActive_twice. f_equal.
  unfold setActive.
  cbn [terminology content selectedCountryISO activeLevels geoJsonCache].
  by rewrite JsSet_delete_twice.
Qed.
